(** * Infrahub: branch- and time-versioned graph core

    A shallow embedding of the branch-aware query filter
    ([infrahub/core/branch.py], class [Branch]), of the diff engine
    ([Diff], [infrahub/core/query/diff.py]), of the conflict detector,
    of the guards of [Branch.merge] and of the scalar serialisation of
    [BaseAttribute] ([backend/infrahub/core/attribute.py]).

    Python dictionaries are insertion-ordered association lists, Python
    sets of tuples are [gset]s, Cypher parameter maps are [gmap]s, and
    code that can raise returns in the [res] error monad. *)

From Stdlib Require Import ZArith String Ascii.
From stdpp Require Import gmap strings list pretty.

#[local] Set Warnings "-clear-no-such-hyp".

Local Open Scope Z_scope.
Local Open Scope string_scope.

(** ** Python dictionaries: insertion-ordered association lists *)

Module PyDict.
Section ops.
Context {K V : Type} `{EqDecision K}.

Fixpoint get (d : list (K * V)) (k : K) : option V :=
match d with
| [] => None
| (k', v) :: d' => if decide (k' = k) then Some v else get d' k
end.

(** [d[k] = v]: an existing key keeps its place, a new key goes last. *)
Fixpoint set (d : list (K * V)) (k : K) (v : V) : list (K * V) :=
match d with
| [] => [(k, v)]
| (k', v') :: d' =>
    if decide (k' = k) then (k', v) :: d' else (k', v') :: set d' k v
end.

Definition keys (d : list (K * V)) : list K := d.*1.

Definition mem (d : list (K * V)) (k : K) : bool :=
bool_decide (k ∈ keys d).

(** A dictionary display [{k1: v1, k2: v2, ...}]. *)
Definition of_items (l : list (K * V)) : list (K * V) :=
foldl (λ d kv, set d kv.1 kv.2) [] l.
End ops.
End PyDict.

(** [enumerate(xs)] *)
Definition enumerate {A} (l : list A) : list (nat * A) :=
  imap (λ i x, (i, x)) l.

(** ** Timestamps *)

(** Modelled from the spec: [infrahub.core.timestamp.Timestamp] is not part
    of the sources at hand; the spec describes it as a totally ordered
    instant, here an integer count of microseconds. [Timestamp(None)] reads
    the clock, [Timestamp(t)] is [t], and [to_string] is the canonical
    rendering of the instant, which we keep abstract as the instant itself. *)
Definition Timestamp (now : Z) (value : option Z) : Z := default now value.

(** ** Constants of [infrahub.core.constants] *)

(** Modelled from the spec: the enumerations [RelationshipStatus] and
    [DiffAction] are imported by [branch.py] but not defined in the sources at
    hand; the spec names their members. Edge statuses are strings read back
    from the store, so any string can occur. *)
Module RelationshipStatus.
Definition ACTIVE : string := "active".
Definition DELETED : string := "deleted".
End RelationshipStatus.

Inductive DiffAction := ADDED | REMOVED | UPDATED.

Global Instance DiffAction_eq_dec : EqDecision DiffAction.
Proof. solve_decision. Defined.

(** ** Branches *)

Module Branch.
Record t := mk {
  name : string;
  status : string;
  description : option string;
  origin_branch : string;
  branched_from : Z;
  is_default : bool;
  is_protected : bool;
  is_data_only : bool;
  ephemeral_rebase : bool
}.
End Branch.

(** ** Edges of the temporal store *)

Module Edge.
Record t := mk {
  branch : string;
  from : Z;
  to : option Z;
  status : string
}.
End Edge.

(** ** A fragment of Cypher: the conditions the filters are made of *)

Inductive cval := VNull | VStr (s : string) | VTime (t : Z).

Global Instance cval_eq_dec : EqDecision cval.
Proof. solve_decision. Defined.

Inductive operand :=
  | OProp (alias prop : string)
  | OParam (p : string).

Inductive cond :=
  | CEq (a b : operand)
  | CLe (a b : operand)
  | CGe (a b : operand)
  | CIsNull (a : operand)
  | CAnd (c1 c2 : cond)
  | COr (newline : bool) (c1 c2 : cond)
  | CParen (c : cond).

Definition NL : string := String (ascii_of_nat 10) EmptyString.

Definition render_operand (o : operand) : string :=
  match o with
  | OProp a p => a +:+ "." +:+ p
  | OParam p => "$" +:+ p
  end.

Fixpoint render (c : cond) : string :=
  match c with
  | CEq a b => render_operand a +:+ " = " +:+ render_operand b
  | CLe a b => render_operand a +:+ " <= " +:+ render_operand b
  | CGe a b => render_operand a +:+ " >= " +:+ render_operand b
  | CIsNull a => render_operand a +:+ " IS NULL"
  | CAnd c1 c2 => render c1 +:+ " AND " +:+ render c2
  | COr nl c1 c2 =>
      render c1 +:+ (if nl then NL +:+ " OR " else " OR ") +:+ render c2
  | CParen c => "(" +:+ render c +:+ ")"
  end.

(** The bindings a condition is evaluated under: the properties of the
    aliased graph elements and the query parameters. A property that is not
    set, like a parameter that is not bound, reads as null. *)
Record env := mkEnv {
  props : string → string → cval;
  params : gmap string cval
}.

Definition eval_operand (ρ : env) (o : operand) : cval :=
  match o with
  | OProp a p => props ρ a p
  | OParam p => default VNull (params ρ !! p)
  end.

(** Cypher's ternary logic: [None] is null. *)
Definition tri_and (a b : option bool) : option bool :=
  match a, b with
  | Some false, _ | _, Some false => Some false
  | Some true, Some true => Some true
  | _, _ => None
  end.

Definition tri_or (a b : option bool) : option bool :=
  match a, b with
  | Some true, _ | _, Some true => Some true
  | Some false, Some false => Some false
  | _, _ => None
  end.

Definition cmp_eq (a b : cval) : option bool :=
  match a, b with
  | VNull, _ | _, VNull => None
  | _, _ => Some (bool_decide (a = b))
  end.

Definition cmp_le (a b : cval) : option bool :=
  match a, b with
  | VTime x, VTime y => Some (bool_decide (x ≤ y)%Z)
  | VStr x, VStr y => Some (String.leb x y)
  | _, _ => None
  end.

Fixpoint eval (ρ : env) (c : cond) : option bool :=
  match c with
  | CEq a b => cmp_eq (eval_operand ρ a) (eval_operand ρ b)
  | CLe a b => cmp_le (eval_operand ρ a) (eval_operand ρ b)
  | CGe a b => cmp_le (eval_operand ρ b) (eval_operand ρ a)
  | CIsNull a => Some (bool_decide (eval_operand ρ a = VNull))
  | CAnd c1 c2 => tri_and (eval ρ c1) (eval ρ c2)
  | COr _ c1 c2 => tri_or (eval ρ c1) (eval ρ c2)
  | CParen c => eval ρ c
  end.

(** A [WHERE] clause keeps a row exactly when its condition is true. *)
Definition selects (ρ : env) (c : cond) : bool :=
  bool_decide (eval ρ c = Some true).

(** Non-empty disjunction, laid out as ["\n OR ".join(...)] does. *)
Fixpoint or_join (c : cond) (cs : list cond) : cond :=
  match cs with
  | [] => c
  | c' :: cs' => COr true c (or_join c' cs')
  end.

Definition or_join_list (cs : list cond) : option cond :=
  match cs with
  | [] => None
  | c :: cs' => Some (or_join c cs')
  end.

Definition edge_time (o : option Z) : cval :=
  match o with
  | None => VNull
  | Some t => VTime t
  end.

Section Filters.
(** [config.SETTINGS.main.default_branch] and the reading of the clock. *)
Variable default_branch : string.
Variable now : Z.

(** [Branch.get_branches_and_times_to_query] *)
Definition get_branches_and_times_to_query
    (self : Branch.t) (at_ : option Z) : list (string * Z) :=
  let at_ := Timestamp now at_ in
  if decide (Branch.name self = default_branch) then
    PyDict.of_items [(default_branch, at_)]
  else
    let time_default_branch := Timestamp now (Some (Branch.branched_from self)) in
    let time_default_branch :=
      if Branch.ephemeral_rebase self || bool_decide (at_ < time_default_branch)%Z
      then at_ else time_default_branch in
    PyDict.of_items [(default_branch, time_default_branch);
                     (Branch.name self, at_)].

(** The parameters [branch{idx}] and [time{idx}] of the three filters. *)
Definition filter_params (branches_times : list (string * Z)) : gmap string cval :=
  foldl (λ params '(idx, (branch_name, time_to_query)),
           <["time" +:+ pretty idx := VTime time_to_query]>
             (<["branch" +:+ pretty idx := VStr branch_name]> params))
        ∅ (enumerate branches_times).

(** The body of the loop of [get_query_filter_branch_to_node]: the filter
    for the queried branch number [idx]. *)
Definition branch_to_node_text (rel_label branch_label : string) (idx : nat) : string :=
  let idx := pretty idx in
  ("(" +:+ branch_label +:+ ".name = $branch" +:+ idx +:+ " AND (")
  +:+ ("(" +:+ rel_label +:+ ".from <= $time" +:+ idx +:+ " AND "
           +:+ rel_label +:+ ".to IS NULL)")
  +:+ (" OR (" +:+ rel_label +:+ ".from <= $time" +:+ idx +:+ " AND "
               +:+ rel_label +:+ ".to >= $time" +:+ idx +:+ ")")
  +:+ "))".

(** [Branch.get_query_filter_branch_to_node] *)
Definition get_query_filter_branch_to_node
    (self : Branch.t) (rel_label branch_label : string) (at_ : option Z)
    (include_outside_parentheses : bool) : string * gmap string cval :=
  let bt := get_branches_and_times_to_query self at_ in
  let filters :=
    (λ '(idx, (_, _)), branch_to_node_text rel_label branch_label idx)
      <$> enumerate bt in
  let params := filter_params bt in
  if negb include_outside_parentheses
  then (String.concat (NL +:+ " OR ") filters, params)
  else ("(" +:+ String.concat (NL +:+ " OR ") filters +:+ ")", params).

(** The two clauses per queried branch of
    [get_query_filter_relationships] and [get_query_filter_path]. *)
Definition rel_clauses_text (rel : string) (bt : list (string * Z)) : list string :=
  mjoin ((λ '(idx, (_, _)),
            let idx := pretty idx in
            [ "(" +:+ rel +:+ ".branch = $branch" +:+ idx +:+ " AND "
                  +:+ rel +:+ ".from <= $time" +:+ idx +:+ " AND "
                  +:+ rel +:+ ".to IS NULL)";
              "(" +:+ rel +:+ ".branch = $branch" +:+ idx +:+ " AND "
                  +:+ rel +:+ ".from <= $time" +:+ idx +:+ " AND "
                  +:+ rel +:+ ".to >= $time" +:+ idx +:+ ")" ])
           <$> enumerate bt).

(** The body of the loop over [rel_labels] in
    [get_query_filter_relationships]: without
    [include_outside_parentheses] the bare filter is appended, and then, in
    both cases, the parenthesised one. *)
Definition relationship_filters_text
    (rel : string) (branches_times : list (string * Z))
    (include_outside_parentheses : bool) : list string :=
  let filters_per_rel := rel_clauses_text rel branches_times in
  ((if negb include_outside_parentheses
    then [String.concat (NL +:+ " OR ") filters_per_rel] else [])
   ++ ["(" +:+ String.concat (NL +:+ " OR ") filters_per_rel +:+ ")"])%list.

(** [Branch.get_query_filter_relationships] *)
Definition get_query_filter_relationships
    (self : Branch.t) (rel_labels : list string) (at_ : option Z)
    (include_outside_parentheses : bool) : list string * gmap string cval :=
  let at_ := Timestamp now at_ in
  let branches_times := get_branches_and_times_to_query self (Some at_) in
  let params := filter_params branches_times in
  let filters :=
    mjoin ((λ rel, relationship_filters_text rel branches_times
                     include_outside_parentheses) <$> rel_labels) in
  (filters, params).

(** [Branch.get_query_filter_path] *)
Definition get_query_filter_path
    (self : Branch.t) (at_ : option Z) : string * gmap string cval :=
  let at_ := Timestamp now at_ in
  let branches_times := get_branches_and_times_to_query self (Some at_) in
  let params := filter_params branches_times in
  let filters := rel_clauses_text "r" branches_times in
  ("(" +:+ String.concat (NL +:+ " OR ") filters +:+ ")", params).
End Filters.

(** ** The filters as conditions

    The same three filters as syntax trees; [render] gives back the text
    (see [filters_render]). *)

Definition branch_to_node_clause (rel_label branch_label idx : string) : cond :=
  CParen
    (CAnd (CEq (OProp branch_label "name") (OParam ("branch" +:+ idx)))
       (CParen
          (COr false
             (CParen (CAnd (CLe (OProp rel_label "from") (OParam ("time" +:+ idx)))
                           (CIsNull (OProp rel_label "to"))))
             (CParen (CAnd (CLe (OProp rel_label "from") (OParam ("time" +:+ idx)))
                           (CGe (OProp rel_label "to") (OParam ("time" +:+ idx)))))))).

Definition rel_clause_open (rel idx : string) : cond :=
  CParen (CAnd (CEq (OProp rel "branch") (OParam ("branch" +:+ idx)))
            (CAnd (CLe (OProp rel "from") (OParam ("time" +:+ idx)))
                  (CIsNull (OProp rel "to")))).

Definition rel_clause_closed (rel idx : string) : cond :=
  CParen (CAnd (CEq (OProp rel "branch") (OParam ("branch" +:+ idx)))
            (CAnd (CLe (OProp rel "from") (OParam ("time" +:+ idx)))
                  (CGe (OProp rel "to") (OParam ("time" +:+ idx))))).

Definition rel_clauses (rel : string) (bt : list (string * Z)) : list cond :=
  mjoin ((λ '(idx, (_, _)),
            [rel_clause_open rel (pretty idx); rel_clause_closed rel (pretty idx)])
           <$> enumerate bt).

Definition get_query_filter_branch_to_node_cond
    (default_branch : string) (now : Z)
    (self : Branch.t) (rel_label branch_label : string) (at_ : option Z)
    (include_outside_parentheses : bool) : option cond :=
  let bt := get_branches_and_times_to_query default_branch now self at_ in
  c ← or_join_list
        ((λ '(idx, (_, _)), branch_to_node_clause rel_label branch_label (pretty idx))
           <$> enumerate bt);
  Some (if negb include_outside_parentheses then c else CParen c).

Definition relationship_filters_cond
    (rel : string) (branches_times : list (string * Z))
    (include_outside_parentheses : bool) : list (option cond) :=
  let filters_per_rel := or_join_list (rel_clauses rel branches_times) in
  ((if negb include_outside_parentheses then [filters_per_rel] else [])
   ++ [CParen <$> filters_per_rel])%list.

Definition get_query_filter_relationships_cond
    (default_branch : string) (now : Z)
    (self : Branch.t) (rel_labels : list string) (at_ : option Z)
    (include_outside_parentheses : bool) : list (option cond) :=
  let at_ := Timestamp now at_ in
  let branches_times :=
    get_branches_and_times_to_query default_branch now self (Some at_) in
  mjoin ((λ rel, relationship_filters_cond rel branches_times
                   include_outside_parentheses) <$> rel_labels).

Definition get_query_filter_path_cond
    (default_branch : string) (now : Z)
    (self : Branch.t) (at_ : option Z) : option cond :=
  let at_ := Timestamp now at_ in
  let branches_times :=
    get_branches_and_times_to_query default_branch now self (Some at_) in
  CParen <$> or_join_list (rel_clauses "r" branches_times).

(** ** Visibility, in the words of the specification *)

(** An edge is visible at [(B, t)] iff some pair of the branch-query set
    names its branch at a time inside its validity, and it is ACTIVE. *)
Definition in_slice (bt : list (string * Z)) (e : Edge.t) : Prop :=
  ∃ br t_br, (br, t_br) ∈ bt ∧ Edge.branch e = br ∧ (Edge.from e ≤ t_br)%Z ∧
             (Edge.to e = None ∨ ∃ t', Edge.to e = Some t' ∧ (t_br ≤ t')%Z).

Definition visible_spec (bt : list (string * Z)) (e : Edge.t) : Prop :=
  ∃ br t_br, (br, t_br) ∈ bt ∧ Edge.branch e = br ∧ (Edge.from e ≤ t_br)%Z ∧
             (Edge.to e = None ∨ ∃ t', Edge.to e = Some t' ∧ (t_br ≤ t')%Z) ∧
             Edge.status e = RelationshipStatus.ACTIVE.

(** The bindings of an edge alias and of a branch-vertex alias. *)
Definition binds_edge (ρ : env) (rel : string) (e : Edge.t) : Prop :=
  props ρ rel "branch" = VStr (Edge.branch e) ∧
  props ρ rel "from" = VTime (Edge.from e) ∧
  props ρ rel "to" = edge_time (Edge.to e) ∧
  props ρ rel "status" = VStr (Edge.status e).

Definition binds_branch (ρ : env) (b : string) (name : string) : Prop :=
  props ρ b "name" = VStr name.

(** The bindings under which the alias [rel] is the edge [e], the alias [b]
    the branch vertex the edge hangs off, and the parameters are [ps]. *)
Definition edge_env (rel b : string) (e : Edge.t) (ps : gmap string cval) : env :=
  mkEnv (λ alias prop,
           if decide (alias = rel) then
             if decide (prop = "branch") then VStr (Edge.branch e)
             else if decide (prop = "from") then VTime (Edge.from e)
             else if decide (prop = "to") then edge_time (Edge.to e)
             else if decide (prop = "status") then VStr (Edge.status e)
             else VNull
           else if decide (alias = b) then
             if decide (prop = "name") then VStr (Edge.branch e) else VNull
           else VNull)
        ps.

(** ** Exceptions *)

Inductive exn :=
  | ValueError (msg : string)
  | Exception (msg : string)
  | KeyError (key : string)
  | TypeError (msg : string).

Inductive res (A : Type) :=
  | Ok (a : A)
  | Raise (e : exn).
Arguments Ok {A} a.
Arguments Raise {A} e.

Global Instance res_ret : MRet res := λ A a, Ok a.
Global Instance res_bind : MBind res := λ A B f m,
  match m with
  | Ok a => f a
  | Raise e => Raise e
  end.

Definition is_ok {A} (r : res A) : bool :=
  match r with Ok _ => true | Raise _ => false end.

(** [for x in xs: acc = body(acc, x)], stopping at the first exception. *)
Fixpoint for_each {A S} (body : S → A → res S) (xs : list A) (acc : S) : res S :=
  match xs with
  | [] => Ok acc
  | x :: xs' => acc' ← body acc x; for_each body xs' acc'
  end.

(** ** What the store returns *)

(** A relationship of the graph as a query returns it: its internal id, its
    type and the metadata it carries. [from] and [to] are absent when the
    property is not set. *)
Module Rel.
Record t := mk {
  id : Z;
  type : string;
  branch : string;
  from : option Z;
  to : option Z;
  status : string
}.
End Rel.

(** A vertex as a query returns it. [name] is the name of an attribute or of
    a relationship vertex, [type] the [type] property of a relationship
    vertex. *)
Module Vertex.
Record t := mk {
  id : Z;
  labels : list string;
  uuid : string;
  name : string;
  type : string
}.
End Vertex.

(** A row of [DiffNodeQuery]: [b], [n], [r]. *)
Module NodeRow.
Record t := mk { b : Vertex.t; n : Vertex.t; r : Rel.t }.
End NodeRow.

(** A row of [DiffAttributeQuery]: [n], [a], [ap], [r1], [r2]. *)
Module AttrRow.
Record t := mk {
  n : Vertex.t; a : Vertex.t; ap : Vertex.t; r1 : Rel.t; r2 : Rel.t;
  branch_score : Z
}.
End AttrRow.

(** A row of [DiffRelationshipQuery]: [sn], [dn], [rel], [r1], [r2], with the
    [branch_score] the query result carries. *)
Module RelRow.
Record t := mk {
  sn : Vertex.t; dn : Vertex.t; rel : Vertex.t; r1 : Rel.t; r2 : Rel.t;
  branch_score : Z
}.
End RelRow.

(** A row of [DiffRelationshipPropertyQuery]: [sn], [dn], [rel], [rp], [r3],
    [r1], [r2]. *)
Module PropRow.
Record t := mk {
  sn : Vertex.t; dn : Vertex.t; rel : Vertex.t; rp : Vertex.t;
  r3 : Rel.t; r1 : Rel.t; r2 : Rel.t;
  branch_score : Z
}.
End PropRow.

(** ** The change set *)

Module PropertyDiffElement.
Record t := mk {
  branch : string;
  type : string;
  action : DiffAction;
  db_id : Z;
  rel_id : Z;
  origin_rel_id : option Z;
  changed_at : option Z
}.
End PropertyDiffElement.

Module NodeAttributeDiffElement.
Record t := mk {
  id : string;
  name : string;
  action : DiffAction;
  db_id : Z;
  rel_id : Z;
  origin_rel_id : option Z;
  changed_at : option Z;
  properties : list (string * PropertyDiffElement.t)
}.
End NodeAttributeDiffElement.

Module NodeDiffElement.
Record t := mk {
  branch : option string;
  labels : list string;
  id : string;
  action : DiffAction;
  db_id : Z;
  rel_id : option Z;
  changed_at : option Z;
  attributes : list (string * NodeAttributeDiffElement.t)
}.
End NodeDiffElement.

Module RelationshipEdgeNodeDiffElement.
Record t := mk {
  id : string;
  db_id : Z;
  rel_id : Z;
  labels : list string
}.
End RelationshipEdgeNodeDiffElement.

Module RelationshipDiffElement.
Record t := mk {
  branch : option string;
  id : string;
  db_id : Z;
  name : string;
  action : DiffAction;
  nodes : list (string * RelationshipEdgeNodeDiffElement.t);
  properties : list (string * PropertyDiffElement.t);
  changed_at : option Z
}.
End RelationshipDiffElement.

(** One entry of [Diff._results]: [dict(nodes={}, rels=defaultdict(dict),
    files={})]. [files] is never written by the code at hand. *)
Module BranchResults.
Record t := mk {
  nodes : list (string * NodeDiffElement.t);
  rels : list (string * list (string * RelationshipDiffElement.t))
}.
Definition empty : t := mk [] [].
End BranchResults.

(** A modified path, a 4-tuple of strings. *)
Definition path : Type := string * string * string * string.

(** ** The [Diff] object *)

Module Diff.
Record t := mk {
  branch : Branch.t;
  origin_branch : Branch.t;
  branch_only : bool;
  diff_from : Z;
  diff_to : Z;
  _results : list (string * BranchResults.t);
  _calculated_diff_nodes_at : option Z;
  _calculated_diff_rels_at : option Z
}.
Definition with_results (d : t) (rs : list (string * BranchResults.t)) : t :=
  mk (branch d) (origin_branch d) (branch_only d) (diff_from d) (diff_to d) rs
     (_calculated_diff_nodes_at d) (_calculated_diff_rels_at d).
End Diff.

(** What [DiffQuery.__init__] sets before handing over to [Query.__init__]. *)
Module DiffQuery.
Record t := mk {
  diff_from : Z;
  diff_to : Z;
  branch_names : list string
}.
End DiffQuery.

(** [self._results[branch_name]] on the [defaultdict]: a missing entry is
    created. *)
Definition results_touch (rs : list (string * BranchResults.t)) (branch_name : string)
    : list (string * BranchResults.t) :=
  if PyDict.mem rs branch_name then rs
  else PyDict.set rs branch_name BranchResults.empty.

Definition results_at (rs : list (string * BranchResults.t)) (branch_name : string)
    : BranchResults.t :=
  default BranchResults.empty (PyDict.get rs branch_name).

(** [self._results[branch_name]["nodes"][node_id] = elem] *)
Definition results_set_node (rs : list (string * BranchResults.t))
    (branch_name node_id : string) (elem : NodeDiffElement.t)
    : list (string * BranchResults.t) :=
  let rs := results_touch rs branch_name in
  let br := results_at rs branch_name in
  PyDict.set rs branch_name
    (BranchResults.mk (PyDict.set (BranchResults.nodes br) node_id elem)
                      (BranchResults.rels br)).

(** The element of a node, and of one of its attributes, in [_results]. *)
Definition results_node (rs : list (string * BranchResults.t))
    (branch_name node_id : string) : option NodeDiffElement.t :=
  PyDict.get (BranchResults.nodes (results_at rs branch_name)) node_id.

Definition results_attr (rs : list (string * BranchResults.t))
    (branch_name node_id attr_name : string) : option NodeAttributeDiffElement.t :=
  node ← results_node rs branch_name node_id;
  PyDict.get (NodeDiffElement.attributes node) attr_name.

(** [self._results[branch_name]["rels"][rel_name]] on the inner
    [defaultdict(dict)]. *)
Definition results_touch_rel (rs : list (string * BranchResults.t))
    (branch_name rel_name : string) : list (string * BranchResults.t) :=
  let rs := results_touch rs branch_name in
  let br := results_at rs branch_name in
  if PyDict.mem (BranchResults.rels br) rel_name then rs
  else PyDict.set rs branch_name
         (BranchResults.mk (BranchResults.nodes br)
                           (PyDict.set (BranchResults.rels br) rel_name [])).

Definition results_rels_at (rs : list (string * BranchResults.t))
    (branch_name rel_name : string) : list (string * RelationshipDiffElement.t) :=
  default [] (PyDict.get (BranchResults.rels (results_at rs branch_name)) rel_name).

(** [self._results[branch_name]["rels"][rel_name][rel_id] = elem] *)
Definition results_set_rel (rs : list (string * BranchResults.t))
    (branch_name rel_name rel_id : string) (elem : RelationshipDiffElement.t)
    : list (string * BranchResults.t) :=
  let rs := results_touch_rel rs branch_name rel_name in
  let br := results_at rs branch_name in
  PyDict.set rs branch_name
    (BranchResults.mk (BranchResults.nodes br)
       (PyDict.set (BranchResults.rels br) rel_name
          (PyDict.set (results_rels_at rs branch_name rel_name) rel_id elem))).

(** [d[k]] on a plain dictionary. *)
Definition dict_item {V} (d : list (string * V)) (k : string) : res V :=
  match PyDict.get d k with
  | Some v => Ok v
  | None => Raise (KeyError k)
  end.

(** [a >= b] on timestamps, where [a] may be [None]. *)
Definition ts_ge (a : option Z) (b : Z) : res bool :=
  match a with
  | Some a => Ok (bool_decide (b ≤ a)%Z)
  | None => Raise (TypeError "'>=' not supported between instances of 'NoneType' and 'Timestamp'")
  end.

(** [t and t < bound] for an optional end of validity. *)
Definition ended_before (t : option Z) (bound : Z) : bool :=
  match t with
  | Some t => bool_decide (t < bound)%Z
  | None => false
  end.

(** ** Construction of a diff *)

Section DiffInit.
(** The reading of the clock, and [infrahub.core.get_branch], the lookup of a
    branch by name in the registry. *)
Variable now : Z.
Variable get_branch : string → Branch.t.

(** [Branch.get_origin_branch] *)
Definition get_origin_branch (self : Branch.t) : Branch.t :=
  get_branch (Branch.origin_branch self).

(** [Diff.__init__] *)
Definition Diff_init (branch : Branch.t) (branch_only : bool)
    (diff_from diff_to : option Z) : res Diff.t :=
  let origin_branch := get_origin_branch branch in
  diff_from ←
    match diff_from with
    | Some _ => Ok (Timestamp now diff_from)
    | None =>
        if negb (Branch.is_default branch)
        then Ok (Timestamp now (Some (Branch.branched_from branch)))
        else Raise (ValueError
               ("diff_from is mandatory when diffing on the default branch `"
                +:+ Branch.name branch +:+ "`."))
    end;
  let diff_to := Timestamp now diff_to in
  if bool_decide (diff_to < diff_from)%Z
  then Raise (ValueError "diff_to must be later than diff_from")
  else Ok (Diff.mk branch origin_branch branch_only diff_from diff_to [] None None).

(** [DiffQuery.__init__], up to the call of [Query.__init__]. *)
Definition DiffQuery_init (branch : Branch.t) (diff_from diff_to : option Z)
    : res DiffQuery.t :=
  diff_from ←
    match diff_from with
    | Some _ => Ok (Timestamp now diff_from)
    | None =>
        if negb (Branch.is_default branch)
        then Ok (Timestamp now (Some (Branch.branched_from branch)))
        else Raise (ValueError "diff_from is mandatory with the diff is on the main branch.")
    end;
  let diff_to := Timestamp now diff_to in
  if bool_decide (diff_to < diff_from)%Z
  then Raise (ValueError "diff_to must be later than diff_from")
  else
    let branch_names :=
      if Branch.is_default branch then [Branch.name branch]
      else [Branch.name branch; Branch.origin_branch branch] in
    Ok (DiffQuery.mk diff_from diff_to branch_names).

(** The [diff_from] a constructor works with, when it has one. *)
Definition resolved_diff_from (B : Branch.t) (diff_from : option Z) : option Z :=
  match diff_from with
  | Some f => Some f
  | None => if Branch.is_default B then None else Some (Branch.branched_from B)
  end.

(** [Branch.diff] *)
Definition Branch_diff (self : Branch.t) (diff_from diff_to : option Z) : res Diff.t :=
  Diff_init self false diff_from diff_to.
End DiffInit.

(** ** Nodes and attributes *)

(** The action and [changed_at] given to a node by the first loop of
    [_calculate_diff_nodes]. A status that is neither ACTIVE nor DELETED
    leaves [item] without an action, and building the element fails. *)
Definition node_action (branch_status : string) : res DiffAction :=
  if decide (branch_status = RelationshipStatus.ACTIVE) then Ok ADDED
  else if decide (branch_status = RelationshipStatus.DELETED) then Ok REMOVED
  else Raise (TypeError "__init__() missing 1 required positional argument: 'action'").

(** The action and [changed_at] given to an attribute by the second loop of
    [_calculate_diff_nodes], with [and] evaluated from left to right. *)
Definition attr_action (node_action : DiffAction) (attr_from : option Z)
    (diff_from : Z) (branch_status : string) : res (DiffAction * option Z) :=
  added ←
    ((if decide (node_action = ADDED) then
       ge ← ts_ge attr_from diff_from;
       Ok (ge && bool_decide (branch_status = RelationshipStatus.ACTIVE))
     else Ok false) : res bool);
  if (added : bool) then Ok (ADDED, attr_from)
  else
    ge ← ts_ge attr_from diff_from;
    if (ge : bool) && bool_decide (branch_status = RelationshipStatus.DELETED)
    then Ok (REMOVED, attr_from)
    else Ok (UPDATED, None).

(** The action and [changed_at] given to a property of an attribute (third
    loop of [_calculate_diff_nodes]) or of a relationship (third loop of
    [_calculated_diff_rels]). *)
Definition prop_action (has_origin : bool) (prop_from : option Z)
    (diff_from : Z) (branch_status : string) : res (DiffAction * option Z) :=
  added ←
    ((if negb has_origin then
       ge ← ts_ge prop_from diff_from;
       Ok (ge && bool_decide (branch_status = RelationshipStatus.ACTIVE))
     else Ok false) : res bool);
  if (added : bool) then Ok (ADDED, prop_from)
  else
    ge ← ts_ge prop_from diff_from;
    if (ge : bool) && bool_decide (branch_status = RelationshipStatus.DELETED)
    then Ok (REMOVED, prop_from)
    else Ok (UPDATED, prop_from).

Definition attribute_set_property (attr : NodeAttributeDiffElement.t)
    (origin_rel_id : option Z) (prop_type : string) (prop : PropertyDiffElement.t)
    : NodeAttributeDiffElement.t :=
  NodeAttributeDiffElement.mk
    (NodeAttributeDiffElement.id attr) (NodeAttributeDiffElement.name attr)
    (NodeAttributeDiffElement.action attr) (NodeAttributeDiffElement.db_id attr)
    (NodeAttributeDiffElement.rel_id attr) origin_rel_id
    (NodeAttributeDiffElement.changed_at attr)
    (PyDict.set (NodeAttributeDiffElement.properties attr) prop_type prop).

Definition node_set_attribute (node : NodeDiffElement.t) (attr_name : string)
    (attr : NodeAttributeDiffElement.t) : NodeDiffElement.t :=
  NodeDiffElement.mk
    (NodeDiffElement.branch node) (NodeDiffElement.labels node)
    (NodeDiffElement.id node) (NodeDiffElement.action node)
    (NodeDiffElement.db_id node) (NodeDiffElement.rel_id node)
    (NodeDiffElement.changed_at node)
    (PyDict.set (NodeDiffElement.attributes node) attr_name attr).

Section DiffNodes.
Variable now : Z.
(** [NodeListGetAttributeQuery(ids, branch, at, include_source=True)] and its
    [get_result_by_id_and_name(node_id, attr_name)]: when the attribute
    exists on the origin branch, the id of its edge for each property type. *)
Variable origin_attr_query :
  gset string → Branch.t → Z → string → string → option (string → Z).

(** First loop of [_calculate_diff_nodes]: one row of [DiffNodeQuery]. *)
Definition diff_nodes_node_row (diff_to : Z)
    (rs : list (string * BranchResults.t)) (result : NodeRow.t)
    : res (list (string * BranchResults.t)) :=
  let node_id := Vertex.uuid (NodeRow.n result) in
  let node_to := Rel.to (NodeRow.r result) in
  if ended_before node_to diff_to then Ok rs
  else
    let branch_status := Rel.status (NodeRow.r result) in
    let branch_name := Vertex.name (NodeRow.b result) in
    let from_time := Rel.from (NodeRow.r result) in
    action ← node_action branch_status;
    Ok (results_set_node rs branch_name node_id
          (NodeDiffElement.mk (Some branch_name)
             (Vertex.labels (NodeRow.n result)) node_id action
             (Vertex.id (NodeRow.n result)) (Some (Rel.id (NodeRow.r result)))
             (Some (Timestamp now from_time)) [])).

(** Second loop, first half: a node that was neither added nor removed is
    entered as UPDATED. *)
Definition diff_nodes_ensure_node
    (rs : list (string * BranchResults.t)) (result : AttrRow.t)
    : list (string * BranchResults.t) :=
  let node_id := Vertex.uuid (AttrRow.n result) in
  let branch_name := Rel.branch (AttrRow.r2 result) in
  let rs := results_touch rs branch_name in
  if negb (PyDict.mem (BranchResults.nodes (results_at rs branch_name)) node_id)
  then results_set_node rs branch_name node_id
         (NodeDiffElement.mk None (Vertex.labels (AttrRow.n result)) node_id
            UPDATED (Vertex.id (AttrRow.n result)) None None [])
  else rs.

(** Second loop: one row of [DiffAttributeQuery]. The state is [_results]
    with [attrs_to_query], the sets of node ids and of attribute names. *)
Definition diff_nodes_attr_row (diff_from diff_to : Z)
    (st : list (string * BranchResults.t) * (gset string * gset string))
    (result : AttrRow.t)
    : res (list (string * BranchResults.t) * (gset string * gset string)) :=
  let '(rs, (q_nodes, q_fields)) := st in
  let node_id := Vertex.uuid (AttrRow.n result) in
  let branch_name := Rel.branch (AttrRow.r2 result) in
  let rs := diff_nodes_ensure_node rs result in
  let attr_name := Vertex.name (AttrRow.a result) in
  node ← dict_item (BranchResults.nodes (results_at rs branch_name)) node_id;
  if negb (PyDict.mem (NodeDiffElement.attributes node) attr_name) then
    let branch_status := Rel.status (AttrRow.r1 result) in
    let attr_to := Rel.to (AttrRow.r1 result) in
    let attr_from := Rel.from (AttrRow.r1 result) in
    if ended_before attr_to diff_to then Ok (rs, (q_nodes, q_fields))
    else
      '(action, changed_at) ←
        attr_action (NodeDiffElement.action node) attr_from diff_from branch_status;
      let q :=
        match action with
        | ADDED => (q_nodes, q_fields)
        | _ => ({[node_id]} ∪ q_nodes, {[attr_name]} ∪ q_fields)
        end in
      let attr :=
        NodeAttributeDiffElement.mk (Vertex.uuid (AttrRow.a result))
          attr_name action (Vertex.id (AttrRow.a result))
          (Rel.id (AttrRow.r1 result)) None changed_at [] in
      Ok (results_set_node rs branch_name node_id
            (node_set_attribute node attr_name attr), q)
  else Ok (rs, (q_nodes, q_fields)).

(** Third loop: the property carried by one row of [DiffAttributeQuery]. *)
Definition diff_nodes_prop_row (origin_branch : Branch.t) (diff_from diff_to : Z)
    (q_nodes : gset string)
    (rs : list (string * BranchResults.t)) (result : AttrRow.t)
    : res (list (string * BranchResults.t)) :=
  let node_id := Vertex.uuid (AttrRow.n result) in
  let branch_name := Rel.branch (AttrRow.r2 result) in
  let branch_status := Rel.status (AttrRow.r2 result) in
  let attr_name := Vertex.name (AttrRow.a result) in
  let prop_type := Rel.type (AttrRow.r2 result) in
  let origin_attr := origin_attr_query q_nodes origin_branch diff_to node_id attr_name in
  let prop_to := Rel.to (AttrRow.r2 result) in
  let prop_from := Rel.from (AttrRow.r2 result) in
  if ended_before prop_to diff_to then Ok rs
  else
    let origin_rel_id := (λ ids : string → Z, ids prop_type) <$> origin_attr in
    '(action, changed_at) ←
      prop_action (bool_decide (is_Some origin_attr)) prop_from diff_from branch_status;
    let prop :=
      PropertyDiffElement.mk branch_name prop_type action
        (Vertex.id (AttrRow.ap result)) (Rel.id (AttrRow.r2 result))
        origin_rel_id changed_at in
    let rs := results_touch rs branch_name in
    node ← dict_item (BranchResults.nodes (results_at rs branch_name)) node_id;
    attr ← dict_item (NodeDiffElement.attributes node) attr_name;
    Ok (results_set_node rs branch_name node_id
          (node_set_attribute node attr_name
             (attribute_set_property attr (Some (Rel.id (AttrRow.r1 result)))
                prop_type prop))).

(** [Diff._calculate_diff_nodes], given the rows of the two queries. *)
Definition _calculate_diff_nodes (query_nodes : list NodeRow.t)
    (query_attrs : list AttrRow.t) (self : Diff.t) : res Diff.t :=
  rs ← for_each (diff_nodes_node_row (Diff.diff_to self)) query_nodes
         (Diff._results self);
  '(rs, (q_nodes, _)) ←
    for_each (diff_nodes_attr_row (Diff.diff_from self) (Diff.diff_to self))
      query_attrs (rs, (∅, ∅));
  rs ← for_each (diff_nodes_prop_row (Diff.origin_branch self)
                   (Diff.diff_from self) (Diff.diff_to self) q_nodes)
         query_attrs rs;
  Ok (Diff.mk (Diff.branch self) (Diff.origin_branch self) (Diff.branch_only self)
        (Diff.diff_from self) (Diff.diff_to self) rs (Some now)
        (Diff._calculated_diff_rels_at self)).
End DiffNodes.

(** ** De-duplication of relationship rows *)

(** [s[n:]] *)
Fixpoint str_from (n : nat) (s : string) : string :=
  match n, s with
  | O, _ => s
  | S n', String _ s' => str_from n' s'
  | S _, EmptyString => EmptyString
  end.

(** [sorted([a, b])] on strings *)
Definition sorted_pair (a b : string) : string * string :=
  if String.ltb b a then (b, a) else (a, b).

(** [sorted(values, key=lambda i: i["branch_score"], reverse=True)]: a stable
    sort by decreasing score. An [info] dictionary is the pair of its [idx]
    and its [branch_score]. *)
Fixpoint insert_desc (x : nat * Z) (l : list (nat * Z)) : list (nat * Z) :=
  match l with
  | [] => [x]
  | y :: l' => if bool_decide (x.2 < y.2)%Z then y :: insert_desc x l' else x :: y :: l'
  end.

Definition sorted_desc (values : list (nat * Z)) : list (nat * Z) :=
  foldr insert_desc [] values.

(** [attrs_info[attr_key].append(info)] on the [defaultdict(list)] *)
Definition attrs_info_append (attrs_info : list (string * list (nat * Z)))
    (attr_key : string) (info : nat * Z) : list (string * list (nat * Z)) :=
  PyDict.set attrs_info attr_key
    (default [] (PyDict.get attrs_info attr_key) ++ [info])%list.

Section GetResults.
Context {Row : Type}.
(** The [element_id]s of the vertices ([inl]) and relationships ([inr]) of a
    row, its grouping key and its [branch_score]. *)
Variable element_ids : Row → gset (Z + Z).
Variable attr_key : Row → string.
Variable branch_score : Row → Z.

(** The first loop of [get_results]: rows whose set of element ids was
    already seen are dropped, the others are filed under their key. *)
Definition get_results_step
    (st : list (string * list (nat * Z)) * list (gset (Z + Z)))
    (entry : nat * Row) : list (string * list (nat * Z)) * list (gset (Z + Z)) :=
  let '(attrs_info, ids_set_processed) := st in
  let '(idx, result) := entry in
  let ids_set := element_ids result in
  if bool_decide (ids_set ∈ ids_set_processed) then st
  else (attrs_info_append attrs_info (attr_key result) (idx, branch_score result),
        (ids_set_processed ++ [ids_set])%list).

(** The row at index [i] is the first one with its set of element ids. *)
Definition first_of_ids (results : list Row) (i : nat) (r : Row) : Prop :=
  results !! i = Some r ∧
  ∀ j r', (j < i)%nat → results !! j = Some r' → element_ids r' ≠ element_ids r.

(** What the first loop has built once it has gone through [results]: under
    each key the indices and scores of the first-of-their-ids rows with that
    key, and the id sets seen. *)
Definition groups_ok (results : list Row)
    (st : list (string * list (nat * Z)) * list (gset (Z + Z))) : Prop :=
  NoDup (PyDict.keys st.1) ∧
  (∀ k, k ∈ PyDict.keys st.1 → default [] (PyDict.get st.1 k) ≠ []) ∧
  (∀ k i s, (i, s) ∈ default [] (PyDict.get st.1 k) ↔
            ∃ r, first_of_ids results i r ∧ attr_key r = k ∧ branch_score r = s) ∧
  (∀ ids, ids ∈ st.2 ↔ ∃ j r, results !! j = Some r ∧ element_ids r = ids).

(** [get_results] of [DiffRelationshipQuery] and of
    [DiffRelationshipPropertyQuery]: the rows it yields, in order. *)
Definition get_results (results : list Row) : list Row :=
  if bool_decide (results = []) then []
  else
    let '(attrs_info, _) := foldl get_results_step ([], []) (enumerate results) in
    omap (λ '(_, values),
            attr_info ← head (sorted_desc values);
            results !! attr_info.1)
         attrs_info.
End GetResults.

Definition RelRow_element_ids (result : RelRow.t) : gset (Z + Z) :=
  list_to_set [inl (Vertex.id (RelRow.sn result)); inl (Vertex.id (RelRow.dn result));
               inl (Vertex.id (RelRow.rel result));
               inr (Rel.id (RelRow.r1 result)); inr (Rel.id (RelRow.r2 result))].

(** The key of [DiffRelationshipQuery.get_results]:
    [f"{branch_name}_{nodes[0]}__{nodes[1]}__{rel_name}"]. *)
Definition RelRow_attr_key (result : RelRow.t) : string :=
  let source_node_uuid := str_from 8 (Vertex.uuid (RelRow.sn result)) in
  let dest_node_uuid := str_from 8 (Vertex.uuid (RelRow.dn result)) in
  let nodes := sorted_pair source_node_uuid dest_node_uuid in
  let rel_name := Vertex.name (RelRow.rel result) in
  let branch_name := Rel.branch (RelRow.r1 result) in
  branch_name +:+ "_" +:+ nodes.1 +:+ "__" +:+ nodes.2 +:+ "__" +:+ rel_name.

(** [DiffRelationshipQuery.get_results] *)
Definition DiffRelationshipQuery_get_results (results : list RelRow.t) : list RelRow.t :=
  get_results RelRow_element_ids RelRow_attr_key RelRow.branch_score results.

Definition PropRow_element_ids (result : PropRow.t) : gset (Z + Z) :=
  list_to_set [inl (Vertex.id (PropRow.sn result)); inl (Vertex.id (PropRow.dn result));
               inl (Vertex.id (PropRow.rel result)); inl (Vertex.id (PropRow.rp result));
               inr (Rel.id (PropRow.r3 result));
               inr (Rel.id (PropRow.r1 result)); inr (Rel.id (PropRow.r2 result))].

Definition PropRow_attr_key (result : PropRow.t) : string :=
  let source_node_uuid := str_from 8 (Vertex.uuid (PropRow.sn result)) in
  let dest_node_uuid := str_from 8 (Vertex.uuid (PropRow.dn result)) in
  let prop_type := Rel.type (PropRow.r3 result) in
  let nodes := sorted_pair source_node_uuid dest_node_uuid in
  let rel_name := Vertex.name (PropRow.rel result) in
  let branch_name := Rel.branch (PropRow.r1 result) in
  branch_name +:+ "_" +:+ nodes.1 +:+ "__" +:+ nodes.2 +:+ "__" +:+ rel_name
              +:+ "__" +:+ prop_type.

(** [DiffRelationshipPropertyQuery.get_results] *)
Definition DiffRelationshipPropertyQuery_get_results (results : list PropRow.t)
    : list PropRow.t :=
  get_results PropRow_element_ids PropRow_attr_key PropRow.branch_score results.

(** The key of the specification: the branch name, the sorted pair of the
    endpoint uuids and the relationship name. *)
Definition RelRow_logical_key (result : RelRow.t) : string * (string * string) * string :=
  (Rel.branch (RelRow.r1 result),
   sorted_pair (Vertex.uuid (RelRow.sn result)) (Vertex.uuid (RelRow.dn result)),
   Vertex.name (RelRow.rel result)).

(** [s.lower()], on the ASCII letters the relationship types are made of *)
Definition ascii_lower (c : ascii) : ascii :=
  let n := nat_of_ascii c in
  if (65 <=? n)%nat && (n <=? 90)%nat then ascii_of_nat (n + 32) else c.

Fixpoint str_lower (s : string) : string :=
  match s with
  | EmptyString => EmptyString
  | String c s' => String (ascii_lower c) (str_lower s')
  end.

(** [DiffAttributeQuery.get_results_group_by_branch_attribute] *)
Definition get_results_group_by_branch_attribute (results : list AttrRow.t)
    : list AttrRow.t :=
  let attrs_info :=
    foldl (λ attrs_info '(idx, result),
             let node_uuid := Vertex.uuid (AttrRow.n result) in
             let attribute_name := Vertex.name (AttrRow.a result) in
             let attribute_branch := Rel.branch (AttrRow.r2 result) in
             let property_type := str_lower (Rel.type (AttrRow.r2 result)) in
             attrs_info_append attrs_info
               (node_uuid +:+ "__" +:+ attribute_branch +:+ "__" +:+ attribute_name
                          +:+ "__" +:+ property_type)
               (idx, AttrRow.branch_score result))
          [] (enumerate results) in
  omap (λ '(_, values),
          attr_info ← head (sorted_desc values);
          results !! attr_info.1)
       attrs_info.

(** ** Relationships *)

Definition relationship_set_property (rel : RelationshipDiffElement.t)
    (prop_type : string) (prop : PropertyDiffElement.t) : RelationshipDiffElement.t :=
  RelationshipDiffElement.mk
    (RelationshipDiffElement.branch rel) (RelationshipDiffElement.id rel)
    (RelationshipDiffElement.db_id rel) (RelationshipDiffElement.name rel)
    (RelationshipDiffElement.action rel) (RelationshipDiffElement.nodes rel)
    (PyDict.set (RelationshipDiffElement.properties rel) prop_type prop)
    (RelationshipDiffElement.changed_at rel).

(** The [nodes] dictionary of a relationship element; both endpoint
    elements are built with [id=src_node_id]. *)
Definition rel_endpoints (sn dn : Vertex.t) (r1 r2 : Rel.t)
    : list (string * RelationshipEdgeNodeDiffElement.t) :=
  let src_node_id := Vertex.uuid sn in
  let dst_node_id := Vertex.uuid dn in
  PyDict.of_items
    [(src_node_id,
      RelationshipEdgeNodeDiffElement.mk src_node_id (Vertex.id sn) (Rel.id r1)
        (Vertex.labels sn));
     (dst_node_id,
      RelationshipEdgeNodeDiffElement.mk src_node_id (Vertex.id dn) (Rel.id r2)
        (Vertex.labels dn))].

Section DiffRels.
Variable now : Z.
(** [RelationshipListGetPropertiesQuery(ids, branch, at)] and its
    [get_by_id_and_prop_type(rel_id, type)]: the id of the edge [r] found on
    the origin branch, if any. *)
Variable origin_rel_properties_query :
  list string → Branch.t → Z → string → string → option Z.

(** First loop of [_calculated_diff_rels]: one row of
    [DiffRelationshipQuery]. The state is [_results] with
    [rel_ids_to_query]. *)
Definition diff_rels_rel_row
    (st : list (string * BranchResults.t) * list string) (result : RelRow.t)
    : res (list (string * BranchResults.t) * list string) :=
  let '(rs, rel_ids_to_query) := st in
  let branch_name := Rel.branch (RelRow.r1 result) in
  let branch_status := Rel.status (RelRow.r1 result) in
  let rel_name := Vertex.type (RelRow.rel result) in
  let rel_id := Vertex.uuid (RelRow.rel result) in
  let from_time := Timestamp now (Rel.from (RelRow.r1 result)) in
  let item action :=
    RelationshipDiffElement.mk (Some branch_name) rel_id
      (Vertex.id (RelRow.rel result)) rel_name action
      (rel_endpoints (RelRow.sn result) (RelRow.dn result)
         (RelRow.r1 result) (RelRow.r2 result))
      [] (Some from_time) in
  if decide (branch_status = RelationshipStatus.ACTIVE) then
    Ok (results_set_rel rs branch_name rel_name rel_id (item ADDED), rel_ids_to_query)
  else if decide (branch_status = RelationshipStatus.DELETED) then
    Ok (results_set_rel rs branch_name rel_name rel_id (item REMOVED),
        (rel_ids_to_query ++ [rel_id])%list)
  else Raise (Exception ("Unexpected value for branch_status: " +:+ branch_status)).

(** Second loop: a relationship known only by a changed property. *)
Definition diff_rels_touch_row
    (st : list (string * BranchResults.t) * list string) (result : PropRow.t)
    : list (string * BranchResults.t) * list string :=
  let '(rs, rel_ids_to_query) := st in
  let branch_name := Rel.branch (PropRow.r3 result) in
  let rel_name := Vertex.type (PropRow.rel result) in
  let rel_id := Vertex.uuid (PropRow.rel result) in
  let rs := results_touch_rel rs branch_name rel_name in
  if PyDict.mem (results_rels_at rs branch_name rel_name) rel_id then
    (rs, rel_ids_to_query)
  else
    (results_set_rel rs branch_name rel_name rel_id
       (RelationshipDiffElement.mk None rel_id (Vertex.id (PropRow.rel result))
          rel_name UPDATED
          (rel_endpoints (PropRow.sn result) (PropRow.dn result)
             (PropRow.r1 result) (PropRow.r2 result))
          [] None),
     (rel_ids_to_query ++ [rel_id])%list).

(** Third loop: the property carried by one row. *)
Definition diff_rels_prop_row (origin_branch : Branch.t) (diff_from diff_to : Z)
    (rel_ids_to_query : list string)
    (rs : list (string * BranchResults.t)) (result : PropRow.t)
    : res (list (string * BranchResults.t)) :=
  let branch_name := Rel.branch (PropRow.r3 result) in
  let branch_status := Rel.status (PropRow.r3 result) in
  let rel_name := Vertex.type (PropRow.rel result) in
  let rel_id := Vertex.uuid (PropRow.rel result) in
  let prop_type := Rel.type (PropRow.r3 result) in
  let prop_from := Timestamp now (Rel.from (PropRow.r3 result)) in
  let origin_prop :=
    origin_rel_properties_query rel_ids_to_query origin_branch diff_to rel_id prop_type in
  '(action, changed_at) ←
    prop_action (bool_decide (is_Some origin_prop)) (Some prop_from) diff_from
      branch_status;
  let prop :=
    PropertyDiffElement.mk branch_name prop_type action
      (Vertex.id (PropRow.rp result)) (Rel.id (PropRow.r3 result))
      origin_prop changed_at in
  let rs := results_touch_rel rs branch_name rel_name in
  rel ← dict_item (results_rels_at rs branch_name rel_name) rel_id;
  Ok (results_set_rel rs branch_name rel_name rel_id
        (relationship_set_property rel prop_type prop)).

(** [Diff._calculated_diff_rels], given the raw results of the two
    queries. *)
Definition _calculated_diff_rels (query_rels : list RelRow.t)
    (query_props : list PropRow.t) (self : Diff.t) : res Diff.t :=
  '(rs, rel_ids_to_query) ←
    for_each diff_rels_rel_row (DiffRelationshipQuery_get_results query_rels)
      (Diff._results self, []);
  let '(rs, rel_ids_to_query) :=
    foldl diff_rels_touch_row (rs, rel_ids_to_query)
      (DiffRelationshipPropertyQuery_get_results query_props) in
  rs ← for_each (diff_rels_prop_row (Diff.origin_branch self)
                   (Diff.diff_from self) (Diff.diff_to self) rel_ids_to_query)
         (DiffRelationshipPropertyQuery_get_results query_props) rs;
  Ok (Diff.mk (Diff.branch self) (Diff.origin_branch self) (Diff.branch_only self)
        (Diff.diff_from self) (Diff.diff_to self) rs
        (Diff._calculated_diff_nodes_at self) (Some now)).
End DiffRels.

(** ** The store behind a diff *)

(** The rows the four diff queries return for a branch and a time window,
    and the two look-ups on the origin branch. *)
Module Store.
Record t := mk {
  diff_node_query : Branch.t → Z → Z → list NodeRow.t;
  diff_attribute_query : Branch.t → Z → Z → list AttrRow.t;
  node_list_get_attribute_query :
    gset string → Branch.t → Z → string → string → option (string → Z);
  diff_relationship_query : Branch.t → Z → Z → list RelRow.t;
  diff_relationship_property_query : Branch.t → Z → Z → list PropRow.t;
  relationship_list_get_properties_query :
    list string → Branch.t → Z → string → string → option Z;
  (* [NodeManager.query("Repository", branch)] and [repo.run_checks()] *)
  repository_checks : Branch.t → list (bool * list string);
  (* the edge [rb] of a node on the default branch, [NodeListGetInfoQuery] *)
  node_list_get_info_query : list string → Branch.t → list (string * Z)
}.
End Store.

(** ** Modified paths and conflicts *)

(** [paths[branch_name].add(p)] on the [defaultdict(set)] *)
Definition paths_add (paths : list (string * gset path)) (branch_name : string)
    (p : path) : list (string * gset path) :=
  PyDict.set paths branch_name ({[p]} ∪ default ∅ (PyDict.get paths branch_name)).

(** [paths[branch_name]], empty when the branch has no entry. *)
Definition paths_at (paths : list (string * gset path)) (branch_name : string)
    : gset path :=
  default ∅ (PyDict.get paths branch_name).

(** The first loop nest of [get_modified_paths]. *)
Definition node_paths (branch_only : bool) (self_name : string)
    (nodes : list (string * list (string * NodeDiffElement.t)))
    (paths : list (string * gset path)) : list (string * gset path) :=
  foldl (λ paths '(branch_name, data),
    if branch_only && negb (bool_decide (branch_name = self_name)) then paths
    else
      foldl (λ paths '(node_id, node),
        foldl (λ paths '(attr_name, attr),
          foldl (λ paths '(prop_type, _),
                   paths_add paths branch_name ("node", node_id, attr_name, prop_type))
                paths (NodeAttributeDiffElement.properties attr))
              paths (NodeDiffElement.attributes node))
            paths data)
    paths nodes.

(** The second loop nest of [get_modified_paths]. *)
Definition rel_paths (branch_only : bool) (self_name : string)
    (rels : list (string * list (string * list (string * RelationshipDiffElement.t))))
    (paths : list (string * gset path)) : list (string * gset path) :=
  foldl (λ paths '(branch_name, data),
    if branch_only && negb (bool_decide (branch_name = self_name)) then paths
    else
      foldl (λ paths '(rel_name, rels),
        foldl (λ paths '(rel_id, rel),
          foldl (λ paths '(prop_type, _),
                   paths_add paths branch_name
                     ("relationships", rel_name, rel_id, prop_type))
                paths (RelationshipDiffElement.properties rel))
              paths rels)
            paths data)
    paths rels.

(** What a loop that only adds paths does: [P x b p] says that the step for
    [x] adds the path [p] under the branch [b]. *)
Definition adds {A} (f : list (string * gset path) → A → list (string * gset path))
    (P : A → string → path → Prop) : Prop :=
  ∀ acc x,
    (∀ b p, p ∈ paths_at (f acc x) b ↔ p ∈ paths_at acc b ∨ P x b p) ∧
    (∀ b, b ∈ PyDict.keys (f acc x) ↔ b ∈ PyDict.keys acc ∨ ∃ p, P x b p) ∧
    (NoDup (PyDict.keys acc) → NoDup (PyDict.keys (f acc x))).

(** The paths one branch entry of [get_nodes] stands for. *)
Definition node_path_of (data : list (string * NodeDiffElement.t)) (p : path) : Prop :=
  ∃ node_id node attr_name attr prop_type prop,
    (node_id, node) ∈ data ∧
    (attr_name, attr) ∈ NodeDiffElement.attributes node ∧
    (prop_type, prop) ∈ NodeAttributeDiffElement.properties attr ∧
    p = ("node", node_id, attr_name, prop_type).

(** The paths one branch entry of [get_relationships] stands for. *)
Definition rel_path_of
    (data : list (string * list (string * RelationshipDiffElement.t))) (p : path) : Prop :=
  ∃ rel_name rels rel_id rel prop_type prop,
    (rel_name, rels) ∈ data ∧
    (rel_id, rel) ∈ rels ∧
    (prop_type, prop) ∈ RelationshipDiffElement.properties rel ∧
    p = ("relationships", rel_name, rel_id, prop_type).

(** The end of [get_conflicts], from the modified paths on: with fewer than
    two branches there is no conflict, otherwise the sets of the first two
    branches are intersected. *)
Definition conflicts_of_paths (paths : list (string * gset path)) : res (gset path) :=
  let branches := PyDict.keys paths in
  if bool_decide (length branches < 2)%nat then Ok ∅
  else
    match branches with
    | b0 :: b1 :: _ =>
        p0 ← dict_item paths b0;
        p1 ← dict_item paths b1;
        Ok (p0 ∩ p1)
    | _ => Raise (Exception "IndexError")
    end.

Section DiffObject.
Variable now : Z.
Variable store : Store.t.

(** [Diff.get_nodes] *)
Definition get_nodes (self : Diff.t)
    : res (list (string * list (string * NodeDiffElement.t)) * Diff.t) :=
  self ←
    match Diff._calculated_diff_nodes_at self with
    | None =>
        _calculate_diff_nodes now (Store.node_list_get_attribute_query store)
          (Store.diff_node_query store (Diff.branch self) (Diff.diff_from self)
             (Diff.diff_to self))
          (Store.diff_attribute_query store (Diff.branch self) (Diff.diff_from self)
             (Diff.diff_to self))
          self
    | Some _ => Ok self
    end;
  Ok ((λ '(branch_name, data), (branch_name, BranchResults.nodes data))
        <$> Diff._results self, self).

(** [Diff.get_relationships] *)
Definition get_relationships (self : Diff.t)
    : res (list (string * list (string * list (string * RelationshipDiffElement.t)))
           * Diff.t) :=
  self ←
    match Diff._calculated_diff_rels_at self with
    | None =>
        _calculated_diff_rels now (Store.relationship_list_get_properties_query store)
          (Store.diff_relationship_query store (Diff.branch self)
             (Diff.diff_from self) (Diff.diff_to self))
          (Store.diff_relationship_property_query store (Diff.branch self)
             (Diff.diff_from self) (Diff.diff_to self))
          self
    | Some _ => Ok self
    end;
  Ok ((λ '(branch_name, data), (branch_name, BranchResults.rels data))
        <$> Diff._results self, self).

(** [Diff.get_modified_paths] *)
Definition get_modified_paths (self : Diff.t)
    : res (list (string * gset path) * Diff.t) :=
  '(nodes, self) ← get_nodes self;
  let paths :=
    node_paths (Diff.branch_only self) (Branch.name (Diff.branch self)) nodes [] in
  '(rels, self) ← get_relationships self;
  let paths :=
    rel_paths (Diff.branch_only self) (Branch.name (Diff.branch self)) rels paths in
  Ok (paths, self).

(** [Diff.get_conflicts]; the empty list it returns in two places is the
    empty set here. *)
Definition get_conflicts (self : Diff.t) : res (gset path * Diff.t) :=
  if Diff.branch_only self then Ok (∅, self)
  else
    '(paths, self) ← get_modified_paths self;
    conflicts ← conflicts_of_paths paths;
    Ok (conflicts, self).
End DiffObject.

(** ** Validation and merge *)

(** What [merge] writes to the graph and to the registry. *)
Inductive write :=
  | W_AddNodeToBranch (node_id : Z) (branch : string)
  | W_NodeDeleteQuery (branch : string) (node_id : string) (at_ : Z)
  | W_add_relationship (src_node_id dst_node_id : Z) (rel_type : string) (at_ : Z)
      (branch_name : string) (status : string)
  | W_update_relationships_to (ids : list (option Z)) (to : Z)
  | W_save_branch (b : Branch.t)
  | W_registry_set (name : string) (b : Branch.t).

(** Computations that write and may raise: the log of writes made so far is
    threaded through, also on the way out of an exception. *)
Definition M (A : Type) : Type := list write → res A * list write.

Global Instance M_ret : MRet M := λ A a log, (Ok a, log).
Global Instance M_bind : MBind M := λ A B f m log,
  match m log with
  | (Ok a, log') => f a log'
  | (Raise e, log') => (Raise e, log')
  end.

Definition lift {A} (r : res A) : M A := λ log, (r, log).
Definition raise {A} (e : exn) : M A := λ log, (Raise e, log).
Definition emit (w : write) : M unit := λ log, (Ok (), (log ++ [w])%list).

Fixpoint forM {A S} (body : S → A → M S) (xs : list A) (acc : S) : M S :=
  match xs with
  | [] => mret acc
  | x :: xs' => acc' ← body acc x; forM body xs' acc'
  end.

(** ['/'.join(conflict)] *)
Definition path_text (p : path) : string :=
  let '(a, b, c, d) := p in String.concat "/" [a; b; c; d].

Section Merge.
Variable default_branch : string.
Variable now : Z.
Variable get_branch : string → Branch.t.
Variable store : Store.t.

(** [Branch.validate] *)
Definition validate (self : Branch.t) : res (bool * list string) :=
  d ← Branch_diff now get_branch self None None;
  '(conflicts, _) ← get_conflicts now store d;
  let '(passed, messages) :=
    if bool_decide (conflicts ≠ ∅)
    then (false, (λ conflict, "Conflict detected at " +:+ path_text conflict)
                   <$> elements conflicts)
    else (true, []) in
  Ok (foldl (λ '(passed, messages) '(result, errors),
               if negb result then (false, (messages ++ errors)%list)
               else (passed, messages))
            (passed, messages) (Store.repository_checks store self)).

(** The properties of one attribute, in the node loop of [merge]. *)
Definition merge_attr_prop (at_ : Z) (default_name : string)
    (attr : NodeAttributeDiffElement.t)
    (rel_ids_to_update : list (option Z)) (entry : string * PropertyDiffElement.t)
    : M (list (option Z)) :=
  let '(prop_type, prop) := entry in
  match PropertyDiffElement.action prop with
  | ADDED =>
      _ ← emit (W_add_relationship (NodeAttributeDiffElement.db_id attr)
                  (PropertyDiffElement.db_id prop) prop_type at_ default_name
                  RelationshipStatus.ACTIVE);
      mret (rel_ids_to_update ++ [Some (PropertyDiffElement.rel_id prop)])%list
  | UPDATED =>
      _ ← emit (W_add_relationship (NodeAttributeDiffElement.db_id attr)
                  (PropertyDiffElement.db_id prop) prop_type at_ default_name
                  RelationshipStatus.ACTIVE);
      mret (rel_ids_to_update ++ [Some (PropertyDiffElement.rel_id prop);
                                  PropertyDiffElement.origin_rel_id prop])%list
  | REMOVED =>
      _ ← emit (W_add_relationship (NodeAttributeDiffElement.db_id attr)
                  (PropertyDiffElement.db_id prop) prop_type at_ default_name
                  RelationshipStatus.DELETED);
      mret (rel_ids_to_update ++ [Some (PropertyDiffElement.rel_id prop);
                                  PropertyDiffElement.origin_rel_id prop])%list
  end.

(** One attribute of a node, in the node loop of [merge]. *)
Definition merge_attr (at_ : Z) (default_name : string) (node : NodeDiffElement.t)
    (rel_ids_to_update : list (option Z))
    (entry : string * NodeAttributeDiffElement.t) : M (list (option Z)) :=
  let '(_, attr) := entry in
  rel_ids_to_update ←
    match NodeAttributeDiffElement.action attr with
    | ADDED =>
        _ ← emit (W_add_relationship (NodeDiffElement.db_id node)
                    (NodeAttributeDiffElement.db_id attr) "HAS_ATTRIBUTE" at_
                    default_name RelationshipStatus.ACTIVE);
        mret (rel_ids_to_update ++ [Some (NodeAttributeDiffElement.rel_id attr)])%list
    | REMOVED =>
        _ ← emit (W_add_relationship (NodeDiffElement.db_id node)
                    (NodeAttributeDiffElement.db_id attr) "HAS_ATTRIBUTE" at_
                    default_name RelationshipStatus.DELETED);
        mret (rel_ids_to_update ++ [Some (NodeAttributeDiffElement.rel_id attr);
                                    NodeAttributeDiffElement.origin_rel_id attr])%list
    | UPDATED => mret rel_ids_to_update
    end;
  forM (merge_attr_prop at_ default_name attr)
    (NodeAttributeDiffElement.properties attr) rel_ids_to_update.

(** One node of the branch, in the node loop of [merge]. *)
Definition merge_node (at_ : Z) (default_name : string)
    (origin_nodes : list (string * Z))
    (rel_ids_to_update : list (option Z)) (entry : string * NodeDiffElement.t)
    : M (list (option Z)) :=
  let '(node_id, node) := entry in
  rel_ids_to_update ←
    match NodeDiffElement.action node with
    | ADDED =>
        _ ← emit (W_AddNodeToBranch (NodeDiffElement.db_id node) default_name);
        mret (rel_ids_to_update ++ [NodeDiffElement.rel_id node])%list
    | REMOVED =>
        _ ← emit (W_NodeDeleteQuery default_name node_id at_);
        rb ← lift (dict_item origin_nodes node_id);
        mret (rel_ids_to_update ++ [NodeDiffElement.rel_id node; Some rb])%list
    | UPDATED => mret rel_ids_to_update
    end;
  forM (merge_attr at_ default_name node) (NodeDiffElement.attributes node)
    rel_ids_to_update.

(** One relationship of the branch, in the relationship loop of [merge]. The
    property edges are added without a [status] argument, that is, with the
    default ACTIVE. *)
Definition merge_rel (at_ : Z) (default_name : string)
    (rel_ids_to_update : list (option Z))
    (entry : string * RelationshipDiffElement.t) : M (list (option Z)) :=
  let '(_, rel) := entry in
  rel_ids_to_update ←
    forM (λ rel_ids_to_update '(_, node),
            match RelationshipDiffElement.action rel with
            | UPDATED => mret rel_ids_to_update
            | action =>
                let rel_status :=
                  if decide (action = REMOVED) then RelationshipStatus.DELETED
                  else RelationshipStatus.ACTIVE in
                _ ← emit (W_add_relationship
                            (RelationshipEdgeNodeDiffElement.db_id node)
                            (RelationshipDiffElement.db_id rel) "IS_RELATED" at_
                            default_name rel_status);
                mret (rel_ids_to_update
                        ++ [Some (RelationshipEdgeNodeDiffElement.rel_id node)])%list
            end)
         (RelationshipDiffElement.nodes rel) rel_ids_to_update;
  forM (λ rel_ids_to_update '(_, prop),
          _ ← emit (W_add_relationship (RelationshipDiffElement.db_id rel)
                      (PropertyDiffElement.db_id prop) (PropertyDiffElement.type prop)
                      at_ default_name RelationshipStatus.ACTIVE);
          let rel_ids_to_update :=
            (rel_ids_to_update ++ [Some (PropertyDiffElement.rel_id prop)])%list in
          match RelationshipDiffElement.action rel with
          | ADDED => mret rel_ids_to_update
          | _ => mret (rel_ids_to_update ++ [PropertyDiffElement.origin_rel_id prop])%list
          end)
       (RelationshipDiffElement.properties rel) rel_ids_to_update.

(** [Branch.rebase] *)
Definition rebase (self : Branch.t) : M unit :=
  let self :=
    Branch.mk (Branch.name self) (Branch.status self) (Branch.description self)
      (Branch.origin_branch self) (Timestamp now None) (Branch.is_default self)
      (Branch.is_protected self) (Branch.is_data_only self)
      (Branch.ephemeral_rebase self) in
  _ ← emit (W_save_branch self);
  emit (W_registry_set (Branch.name self) self).

(** [Branch.merge] *)
Definition merge (self : Branch.t) (at_ : option Z) : M unit :=
  '(passed, _) ← lift (validate self);
  if negb passed then
    raise (Exception ("Unable to merge the branch '" +:+ Branch.name self
                      +:+ "', validation failed"))
  else if decide (Branch.name self = default_branch) then
    raise (Exception ("Unable to merge the branch '" +:+ Branch.name self
                      +:+ "' into itself"))
  else
    let default_branch_obj := get_branch default_branch in
    let at_ := Timestamp now at_ in
    diff ← lift (Diff_init now get_branch self false None None);
    '(nodes, diff) ← lift (get_nodes now store diff);
    branch_nodes ← lift (dict_item nodes (Branch.name self));
    let origin_nodes :=
      Store.node_list_get_info_query store (PyDict.keys branch_nodes)
        default_branch_obj in
    rel_ids_to_update ←
      forM (merge_node at_ (Branch.name default_branch_obj) origin_nodes)
        branch_nodes [];
    '(rels, diff) ← lift (get_relationships now store diff);
    branch_rels ← lift (dict_item rels (Branch.name self));
    rel_ids_to_update ←
      forM (λ rel_ids_to_update '(_, rels_of_name),
              forM (merge_rel at_ (Branch.name default_branch_obj))
                rels_of_name rel_ids_to_update)
        branch_rels rel_ids_to_update;
    _ ← emit (W_update_relationships_to rel_ids_to_update at_);
    rebase self.
End Merge.

(** ** Scalar serialisation of [BaseAttribute] *)

(** The values of a scalar attribute. *)
Inductive pyval :=
  | PNone
  | PBool (b : bool)
  | PInt (n : Z)
  | PStr (s : string).

Global Instance pyval_eq_dec : EqDecision pyval.
Proof. solve_decision. Defined.

Module BaseAttribute.
(** [BaseAttribute.serialize] *)
Definition serialize (value : pyval) : pyval := value.

(** [BaseAttribute.deserialize] *)
Definition deserialize (value : pyval) : pyval := value.

(** [BaseAttribute.to_db], as a function of [self.value] *)
Definition to_db (value : pyval) : pyval :=
  if decide (value = PNone) then PStr "NULL" else serialize value.

(** [BaseAttribute.from_db] *)
Definition from_db (value : pyval) : pyval :=
  if decide (value = PStr "NULL") then PNone else deserialize value.
End BaseAttribute.
(** ** Sample data *)

Definition main_branch : Branch.t :=
  Branch.mk "main" "OPEN" None "main" 0 true true false false.

Definition branch2 : Branch.t :=
  Branch.mk "branch2" "OPEN" None "main" 50 false false false false.

(** An edge of [main] that records a deletion at time 5 and is still open. *)
Definition deleted_edge : Edge.t :=
  Edge.mk "main" 5 None RelationshipStatus.DELETED.

Definition active_edge : Edge.t :=
  Edge.mk "main" 5 None RelationshipStatus.ACTIVE.

(** A node [C] with an attribute [name], whose value was changed on
    [branch2] at time 70 and on [main] at time 60. *)
Definition vertex_C : Vertex.t :=
  Vertex.mk 1 ["Node"; "Criticality"] "cccccccc-0000-0000-0000-000000000001" "" "".

Definition vertex_name : Vertex.t :=
  Vertex.mk 2 ["Attribute"] "aaaaaaaa-0000-0000-0000-000000000002" "name" "".

Definition vertex_value_y : Vertex.t :=
  Vertex.mk 3 ["AttributeValue"] "" "" "".

Definition vertex_value_z : Vertex.t :=
  Vertex.mk 4 ["AttributeValue"] "" "" "".

Definition edge_has_attribute : Rel.t :=
  Rel.mk 10 "HAS_ATTRIBUTE" "main" (Some 10%Z) None RelationshipStatus.ACTIVE.

Definition edge_value_branch2 : Rel.t :=
  Rel.mk 11 "HAS_VALUE" "branch2" (Some 70%Z) None RelationshipStatus.ACTIVE.

Definition edge_value_main : Rel.t :=
  Rel.mk 12 "HAS_VALUE" "main" (Some 60%Z) None RelationshipStatus.ACTIVE.

Definition attr_row_branch2 : AttrRow.t :=
  AttrRow.mk vertex_C vertex_name vertex_value_y edge_has_attribute
    edge_value_branch2 2.

Definition attr_row_main : AttrRow.t :=
  AttrRow.mk vertex_C vertex_name vertex_value_z edge_has_attribute
    edge_value_main 1.

(** A store in which only [branch2] changed [C.name]. *)
Definition clean_store : Store.t :=
  Store.mk (λ _ _ _, []) (λ _ _ _, [attr_row_branch2])
    (λ _ _ _ _ _, Some (λ _, 9%Z))
    (λ _ _ _, []) (λ _ _ _, []) (λ _ _ _ _ _, None)
    (λ _, []) (λ _ _, []).

(** A store in which both [branch2] and [main] changed [C.name]. *)
Definition conflict_store : Store.t :=
  Store.mk (λ _ _ _, []) (λ _ _ _, [attr_row_branch2; attr_row_main])
    (λ _ _ _ _ _, Some (λ _, 9%Z))
    (λ _ _ _, []) (λ _ _ _, []) (λ _ _ _ _ _, None)
    (λ _, []) (λ _ _, []).

(** The diff of [branch2] from its creation at 50 to the time 100. *)
Definition sample_diff : Diff.t :=
  Diff.mk branch2 main_branch false 50 100 [] None None.

Definition sample_diff_branch_only : Diff.t :=
  Diff.mk branch2 main_branch true 50 100 [] None None.

(** A relationship between [C] and a person [P] whose flag [is_visible] was
    changed on [branch2] at time 70. *)
Definition vertex_P : Vertex.t :=
  Vertex.mk 5 ["Node"; "Person"] "pppppppp-0000-0000-0000-000000000005" "" "".

Definition vertex_rel : Vertex.t :=
  Vertex.mk 20 ["Relationship"] "rrrrrrrr-0000-0000-0000-000000000020"
    "car__person" "car__person".

Definition vertex_flag : Vertex.t := Vertex.mk 21 ["Boolean"] "" "" "".

Definition prop_row_branch2 : PropRow.t :=
  PropRow.mk vertex_C vertex_P vertex_rel vertex_flag
    (Rel.mk 30 "IS_VISIBLE" "branch2" (Some 70%Z) None RelationshipStatus.ACTIVE)
    (Rel.mk 31 "IS_RELATED" "main" (Some 10%Z) None RelationshipStatus.ACTIVE)
    (Rel.mk 32 "IS_RELATED" "main" (Some 10%Z) None RelationshipStatus.ACTIVE)
    2.

Definition rel_store : Store.t :=
  Store.mk (λ _ _ _, []) (λ _ _ _, []) (λ _ _ _ _ _, None)
    (λ _ _ _, []) (λ _ _ _, [prop_row_branch2]) (λ _ _ _ _ _, Some 29%Z)
    (λ _, []) (λ _ _, []).

(** Two relationships of the same name on [branch2], between two different
    pairs of nodes whose uuids differ in their first eight characters only. *)
Definition rel_row_1 : RelRow.t :=
  RelRow.mk
    (Vertex.mk 101 ["Node"] "aaaaaaaa-0000-0000-0000-000000000001" "" "")
    (Vertex.mk 102 ["Node"] "bbbbbbbb-0000-0000-0000-000000000002" "" "")
    (Vertex.mk 103 ["Relationship"] "eeeeeeee-0000-0000-0000-000000000003"
       "car__person" "car__person")
    (Rel.mk 104 "IS_RELATED" "branch2" (Some 70%Z) None RelationshipStatus.ACTIVE)
    (Rel.mk 105 "IS_RELATED" "branch2" (Some 70%Z) None RelationshipStatus.ACTIVE)
    2.

Definition rel_row_2 : RelRow.t :=
  RelRow.mk
    (Vertex.mk 201 ["Node"] "cccccccc-0000-0000-0000-000000000001" "" "")
    (Vertex.mk 202 ["Node"] "dddddddd-0000-0000-0000-000000000002" "" "")
    (Vertex.mk 203 ["Relationship"] "ffffffff-0000-0000-0000-000000000003"
       "car__person" "car__person")
    (Rel.mk 204 "IS_RELATED" "branch2" (Some 80%Z) None RelationshipStatus.ACTIVE)
    (Rel.mk 205 "IS_RELATED" "branch2" (Some 80%Z) None RelationshipStatus.ACTIVE)
    2.

(** A store in which only [branch2] changed [C.name] and a repository check
    fails. *)
Definition failing_check_store : Store.t :=
  Store.mk (λ _ _ _, []) (λ _ _ _, [attr_row_branch2])
    (λ _ _ _ _ _, Some (λ _, 9%Z))
    (λ _ _ _, []) (λ _ _ _, []) (λ _ _ _ _ _, None)
    (λ _, [(false, ["check `validate_names` failed"])]) (λ _ _, []).

(** ** Parameters a condition refers to *)

Definition operand_params (o : operand) : list string :=
  match o with
  | OProp _ _ => []
  | OParam p => [p]
  end.

Fixpoint cond_params (c : cond) : list string :=
  match c with
  | CEq a b | CLe a b | CGe a b => operand_params a ++ operand_params b
  | CIsNull a => operand_params a
  | CAnd c1 c2 | COr _ c1 c2 => cond_params c1 ++ cond_params c2
  | CParen c => cond_params c
  end%list.

(** ** More sample data *)

(** A node [A] added on [branch2] at time 70, and the same row with a
    status the code does not know. *)
Definition vertex_A : Vertex.t :=
  Vertex.mk 6 ["Node"; "Criticality"] "aaaaaaaa-0000-0000-0000-000000000006" "" "".

Definition vertex_branch2 : Vertex.t :=
  Vertex.mk 7 ["Branch"] "" "branch2" "".

Definition node_row_added : NodeRow.t :=
  NodeRow.mk vertex_branch2 vertex_A
    (Rel.mk 40 "IS_PART_OF" "" (Some 70%Z) None RelationshipStatus.ACTIVE).

(** The state of the results after the second loop has seen the change of
    [C.name] on [branch2]. *)
Definition results_after_attr_loop : list (string * BranchResults.t) :=
  match diff_nodes_attr_row 50 100 ([], (∅, ∅)) attr_row_branch2 with
  | Ok (rs, _) => rs
  | Raise _ => []
  end.

(** The attribute [name] of [C] was detached on [branch2] at time 80, while
    the edge to its value is still open. *)
Definition attr_row_ended : AttrRow.t :=
  AttrRow.mk vertex_C vertex_name vertex_value_y
    (Rel.mk 13 "HAS_ATTRIBUTE" "branch2" (Some 60%Z) (Some 80%Z)
       RelationshipStatus.ACTIVE)
    edge_value_branch2 2.

(** The attribute [name] of [C], removed on [branch2] at time 70. *)
Definition attr_row_removed : AttrRow.t :=
  AttrRow.mk vertex_C vertex_name vertex_value_y
    (Rel.mk 14 "HAS_ATTRIBUTE" "branch2" (Some 70%Z) None RelationshipStatus.DELETED)
    (Rel.mk 15 "HAS_VALUE" "branch2" (Some 70%Z) None RelationshipStatus.DELETED)
    2.

(** The results once the first loop has recorded the node [A] as added on
    [branch2], and the attribute [name] created with it at time 70. *)
Definition results_after_node_loop : list (string * BranchResults.t) :=
  match diff_nodes_node_row 100 100 [] node_row_added with
  | Ok rs => rs
  | Raise _ => []
  end.

Definition attr_row_added : AttrRow.t :=
  AttrRow.mk vertex_A vertex_name vertex_value_y
    (Rel.mk 16 "HAS_ATTRIBUTE" "branch2" (Some 70%Z) None RelationshipStatus.ACTIVE)
    (Rel.mk 17 "HAS_VALUE" "branch2" (Some 70%Z) None RelationshipStatus.ACTIVE)
    2.

(** The same relationship between [C] and [P], seen once through edges of
    [main] (the parent) and once through edges of [branch2] (the child); the
    row of the child has the higher branch score. *)
Definition rel_row_parent : RelRow.t :=
  RelRow.mk vertex_C vertex_P vertex_rel
    (Rel.mk 50 "IS_RELATED" "main" (Some 60%Z) None RelationshipStatus.ACTIVE)
    (Rel.mk 51 "IS_RELATED" "main" (Some 60%Z) None RelationshipStatus.ACTIVE)
    1.

Definition rel_row_child : RelRow.t :=
  RelRow.mk vertex_C vertex_P vertex_rel
    (Rel.mk 52 "IS_RELATED" "branch2" (Some 70%Z) None RelationshipStatus.ACTIVE)
    (Rel.mk 53 "IS_RELATED" "branch2" (Some 70%Z) None RelationshipStatus.ACTIVE)
    2.

(** * Properties *)

(** ** Dictionaries *)

Section PyDictProps.
Context {K V : Type} `{EqDecision K}.
Implicit Types (d : list (K * V)) (k : K) (v : V).

Lemma get_set_eq d k v : PyDict.get (PyDict.set d k v) k = Some v.
Proof.
  induction d as [|[k' v'] d IH]; simpl.
  - by rewrite decide_True.
  - destruct (decide (k' = k)) as [->|Hne]; simpl.
    + by rewrite decide_True.
    + by rewrite decide_False.
Qed.

Lemma get_set_ne d k k' v :
  k ≠ k' → PyDict.get (PyDict.set d k v) k' = PyDict.get d k'.
Proof.
  intros Hne. induction d as [|[k0 v0] d IH]; simpl.
  - by rewrite decide_False.
  - destruct (decide (k0 = k)) as [->|Hne0]; simpl.
    + by rewrite !decide_False.
    + by rewrite IH.
Qed.

Lemma get_None d k : PyDict.get d k = None ↔ k ∉ PyDict.keys d.
Proof.
  unfold PyDict.keys. induction d as [|[k' v'] d IH]; simpl.
  - split; [intros _; apply not_elem_of_nil | done].
  - rewrite not_elem_of_cons. destruct (decide (k' = k)) as [->|Hne].
    + split; [done | by intros [? _]].
    + rewrite IH. split; [by intros ?; split | by intros [_ ?]].
Qed.

Lemma get_Some_elem d k v : PyDict.get d k = Some v → (k, v) ∈ d.
Proof.
  induction d as [|[k' v'] d IH]; simpl; [done|].
  destruct (decide (k' = k)) as [->|Hne].
  - intros [= ->]. left.
  - intros H. right. by apply IH.
Qed.

Lemma elem_get_is_Some d k v : (k, v) ∈ d → is_Some (PyDict.get d k).
Proof.
  intros Hin. destruct (PyDict.get d k) eqn:Hg; [done|].
  apply get_None in Hg. exfalso. apply Hg.
  unfold PyDict.keys. apply list_elem_of_fmap. by exists (k, v).
Qed.

Lemma mem_true d k : PyDict.mem d k = true ↔ is_Some (PyDict.get d k).
Proof.
  unfold PyDict.mem. rewrite bool_decide_eq_true. split.
  - intros Hin. destruct (PyDict.get d k) eqn:Hg; [done|].
    by apply get_None in Hg.
  - intros [v Hg]. destruct (decide (k ∈ PyDict.keys d)) as [|Hn]; [done|].
    apply get_None in Hn. congruence.
Qed.

Lemma mem_false d k : PyDict.mem d k = false ↔ PyDict.get d k = None.
Proof.
  unfold PyDict.mem. rewrite bool_decide_eq_false. symmetry. apply get_None.
Qed.

Lemma keys_set d k v :
  PyDict.keys (PyDict.set d k v) =
  if PyDict.mem d k then PyDict.keys d else (PyDict.keys d ++ [k])%list.
Proof.
  unfold PyDict.mem, PyDict.keys. induction d as [|[k' v'] d IH].
  - cbn [PyDict.set fmap list_fmap fst app].
    rewrite bool_decide_eq_false_2; [done | apply not_elem_of_nil].
  - cbn [PyDict.set]. destruct (decide (k' = k)) as [->|Hne].
    + rewrite !fmap_cons. cbn [fst]. rewrite bool_decide_eq_true_2; [done | left].
    + rewrite !fmap_cons. cbn [fst]. rewrite IH.
      destruct (decide (k ∈ d.*1)) as [Hin|Hnin].
      * rewrite !bool_decide_eq_true_2; [done | by right | done].
      * rewrite !bool_decide_eq_false_2; [done | | done].
        rewrite not_elem_of_cons. by split.
Qed.

Lemma NoDup_keys_set d k v :
  NoDup (PyDict.keys d) → NoDup (PyDict.keys (PyDict.set d k v)).
Proof.
  intros Hnd. rewrite keys_set. unfold PyDict.mem.
  destruct (decide (k ∈ PyDict.keys d)) as [Hin|Hnin].
  - by rewrite bool_decide_eq_true_2.
  - rewrite bool_decide_eq_false_2 by done.
    apply NoDup_app. split; [done|]. split; [|apply NoDup_singleton].
    intros x Hx ->%list_elem_of_singleton. done.
Qed.

Lemma elem_of_keys_set d k k' v :
  k' ∈ PyDict.keys (PyDict.set d k v) ↔ k' = k ∨ k' ∈ PyDict.keys d.
Proof.
  rewrite keys_set. unfold PyDict.mem.
  destruct (decide (k ∈ PyDict.keys d)) as [Hin|Hnin].
  - rewrite bool_decide_eq_true_2 by done. split; [by right|].
    by intros [->|?].
  - rewrite bool_decide_eq_false_2 by done.
    rewrite elem_of_app, list_elem_of_singleton. tauto.
Qed.
End PyDictProps.

Section FilterProps.
Variable default_branch : string.
Variable now : Z.

Local Abbreviation branches_to_query := (get_branches_and_times_to_query default_branch now).

Lemma branches_to_query_cases (B : Branch.t) (at_ : option Z) :
  let t := Timestamp now at_ in
  (Branch.name B = default_branch ∧ branches_to_query B at_ = [(default_branch, t)]) ∨
  (Branch.name B ≠ default_branch ∧
   branches_to_query B at_ =
     [(default_branch,
       if Branch.ephemeral_rebase B || bool_decide (t < Branch.branched_from B)%Z
       then t else Branch.branched_from B);
      (Branch.name B, t)]).
Proof.
  intros t. unfold get_branches_and_times_to_query. fold t.
  destruct (decide (Branch.name B = default_branch)) as [Heq|Hne].
  - left. split; [done|]. reflexivity.
  - right. split; [done|]. unfold PyDict.of_items. simpl.
    destruct (decide (default_branch = Branch.name B)); [congruence|done].
Qed.

Lemma tri_or_true a b : tri_or a b = Some true ↔ a = Some true ∨ b = Some true.
Proof. destruct a as [[]|], b as [[]|]; simpl; intuition congruence. Qed.

Lemma tri_and_true a b : tri_and a b = Some true ↔ a = Some true ∧ b = Some true.
Proof. destruct a as [[]|], b as [[]|]; simpl; intuition congruence. Qed.

Lemma eval_or_join ρ c cs :
  eval ρ (or_join c cs) = Some true ↔ ∃ c', c' ∈ c :: cs ∧ eval ρ c' = Some true.
Proof.
  revert c. induction cs as [|c' cs IH]; intros c; simpl.
  - split; [intros H; exists c; split; [left|done]|].
    intros (c' & Hin & H). by apply list_elem_of_singleton in Hin as ->.
  - rewrite tri_or_true, IH. split.
    + intros [H|(c'' & Hin & H)]; [exists c; split; [left|done]|].
      exists c''. split; [by right|done].
    + intros (c'' & Hin & H). apply elem_of_cons in Hin as [->|Hin]; [by left|].
      right. eauto.
Qed.

Lemma cmp_eq_str a b : cmp_eq (VStr a) (VStr b) = Some true ↔ a = b.
Proof.
  simpl. split.
  - intros [= H%bool_decide_eq_true]. congruence.
  - intros ->. by rewrite bool_decide_eq_true_2.
Qed.

Lemma cmp_le_time a b : cmp_le (VTime a) (VTime b) = Some true ↔ (a ≤ b)%Z.
Proof.
  simpl. split.
  - by intros [= H%bool_decide_eq_true].
  - intros H. by rewrite bool_decide_eq_true_2.
Qed.

Lemma cmp_le_edge_time t o :
  cmp_le (VTime t) (edge_time o) = Some true ↔ ∃ t', o = Some t' ∧ (t ≤ t')%Z.
Proof.
  destruct o as [t'|]; simpl.
  - split.
    + intros [= H%bool_decide_eq_true]. eauto.
    + intros (? & [= <-] & H). by rewrite bool_decide_eq_true_2.
  - split; [done|]. by intros (? & ? & _).
Qed.

Lemma is_null_edge_time o :
  Some (bool_decide (edge_time o = VNull)) = Some true ↔ o = None.
Proof. destruct o; simpl; split; (done || by rewrite ?bool_decide_eq_true_2). Qed.

Section clauses.
Variables (ρ : env) (idx : string) (e : Edge.t) (br : string) (t : Z).
Hypothesis Hbranch : params ρ !! ("branch" +:+ idx) = Some (VStr br).
Hypothesis Htime : params ρ !! ("time" +:+ idx) = Some (VTime t).

Lemma eval_rel_clause_open rel :
  binds_edge ρ rel e →
  eval ρ (rel_clause_open rel idx) = Some true ↔
  Edge.branch e = br ∧ (Edge.from e ≤ t)%Z ∧ Edge.to e = None.
Proof.
  intros (Hb & Hf & Hto & _). unfold rel_clause_open. cbn [eval eval_operand].
  rewrite Hbranch, Htime, Hb, Hf, Hto. cbn [from_option]; unfold id.
  by rewrite !tri_and_true, cmp_eq_str, cmp_le_time, is_null_edge_time.
Qed.

Lemma eval_rel_clause_closed rel :
  binds_edge ρ rel e →
  eval ρ (rel_clause_closed rel idx) = Some true ↔
  Edge.branch e = br ∧ (Edge.from e ≤ t)%Z ∧
  ∃ t', Edge.to e = Some t' ∧ (t ≤ t')%Z.
Proof.
  intros (Hb & Hf & Hto & _). unfold rel_clause_closed. cbn [eval eval_operand].
  rewrite Hbranch, Htime, Hb, Hf, Hto. cbn [from_option]; unfold id.
  by rewrite !tri_and_true, cmp_eq_str, cmp_le_time, cmp_le_edge_time.
Qed.

Lemma eval_branch_to_node_clause rl bl :
  binds_branch ρ bl (Edge.branch e) →
  props ρ rl "from" = VTime (Edge.from e) →
  props ρ rl "to" = edge_time (Edge.to e) →
  eval ρ (branch_to_node_clause rl bl idx) = Some true ↔
  Edge.branch e = br ∧ (Edge.from e ≤ t)%Z ∧
  (Edge.to e = None ∨ ∃ t', Edge.to e = Some t' ∧ (t ≤ t')%Z).
Proof.
  intros Hb Hf Hto. red in Hb. unfold branch_to_node_clause.
  cbn [eval eval_operand].
  rewrite Hbranch, Htime, Hb, Hf, Hto. cbn [from_option]; unfold id.
  rewrite !tri_and_true, tri_or_true, !tri_and_true, cmp_eq_str, cmp_le_time,
    cmp_le_edge_time, is_null_edge_time.
  tauto.
Qed.
End clauses.

(** *** The conditions render to the text the code builds *)

Lemma append_assoc (s1 s2 s3 : string) : (s1 +:+ s2) +:+ s3 = s1 +:+ (s2 +:+ s3).
Proof.
  induction s1 as [|a s1 IH]; [done|].
  change (String a ((s1 +:+ s2) +:+ s3) = String a (s1 +:+ (s2 +:+ s3))).
  by rewrite IH.
Qed.

Lemma render_rel_clause_open rel idx :
  render (rel_clause_open rel idx) =
  "(" +:+ rel +:+ ".branch = $branch" +:+ idx +:+ " AND "
      +:+ rel +:+ ".from <= $time" +:+ idx +:+ " AND "
      +:+ rel +:+ ".to IS NULL)".
Proof. cbn [render rel_clause_open render_operand]. by rewrite !append_assoc. Qed.

Lemma render_rel_clause_closed rel idx :
  render (rel_clause_closed rel idx) =
  "(" +:+ rel +:+ ".branch = $branch" +:+ idx +:+ " AND "
      +:+ rel +:+ ".from <= $time" +:+ idx +:+ " AND "
      +:+ rel +:+ ".to >= $time" +:+ idx +:+ ")".
Proof. cbn [render rel_clause_closed render_operand]. by rewrite !append_assoc. Qed.

Lemma render_branch_to_node_clause rl bl idx :
  render (branch_to_node_clause rl bl (pretty idx)) = branch_to_node_text rl bl idx.
Proof.
  unfold branch_to_node_text.
  cbn [render branch_to_node_clause render_operand]. by rewrite !append_assoc.
Qed.

Lemma render_or_join c cs :
  render (or_join c cs) = String.concat (NL +:+ " OR ") (render <$> c :: cs).
Proof.
  revert c. induction cs as [|c' cs IH]; intros c; [done|].
  cbn [or_join render]. rewrite IH. cbn [fmap list_fmap String.concat].
  by rewrite !append_assoc.
Qed.

Lemma rel_clauses_text_render rel bt :
  rel_clauses_text rel bt = render <$> rel_clauses rel bt.
Proof.
  unfold rel_clauses_text, rel_clauses.
  induction (enumerate bt) as [|[idx [br t]] l IH]; [done|].
  rewrite !fmap_cons.
  change (mjoin (?x :: ?l)) with (x ++ mjoin l)%list.
  rewrite fmap_app, <- IH. f_equal. cbn [fmap list_fmap].
  by rewrite render_rel_clause_open, render_rel_clause_closed.
Qed.

(** *** The parameters bound by the filters *)

Lemma filter_params_snoc bt b t :
  filter_params (bt ++ [(b, t)]) =
  <["time" +:+ pretty (length bt) := VTime t]>
    (<["branch" +:+ pretty (length bt) := VStr b]> (filter_params bt)).
Proof.
  unfold filter_params, enumerate. rewrite imap_app, foldl_app. simpl.
  by rewrite Nat.add_0_r.
Qed.

Lemma filter_params_lookup bt i br t :
  bt !! i = Some (br, t) →
  filter_params bt !! ("branch" +:+ pretty i) = Some (VStr br) ∧
  filter_params bt !! ("time" +:+ pretty i) = Some (VTime t).
Proof.
  revert i br t. induction bt as [|[b' t'] bt IH] using rev_ind; intros i br t Hi.
  { by rewrite lookup_nil in Hi. }
  rewrite filter_params_snoc.
  destruct (decide (i = length bt)) as [->|Hne].
  - rewrite list_lookup_middle in Hi by done. injection Hi as -> ->.
    split; [|by rewrite lookup_insert_eq].
    rewrite lookup_insert_ne by done. by rewrite lookup_insert_eq.
  - assert (i < length bt)%nat as Hlt.
    { apply lookup_lt_Some in Hi. rewrite length_app in Hi. simpl in Hi. lia. }
    rewrite lookup_app_l in Hi by done.
    assert ("branch" +:+ pretty (length bt) ≠ "branch" +:+ pretty i) as Hb.
    { intros H%(inj _)%(inj _). congruence. }
    assert ("time" +:+ pretty (length bt) ≠ "time" +:+ pretty i) as Ht.
    { intros H%(inj _)%(inj _). congruence. }
    destruct (IH _ _ _ Hi) as [IHb IHt].
    split.
    + rewrite lookup_insert_ne by done. by rewrite lookup_insert_ne.
    + rewrite lookup_insert_ne by done. by rewrite lookup_insert_ne.
Qed.

(** *** What the filters select *)

Lemma elem_of_rel_clauses rel bt c :
  c ∈ rel_clauses rel bt ↔
  ∃ i br t, bt !! i = Some (br, t) ∧
            (c = rel_clause_open rel (pretty i) ∨ c = rel_clause_closed rel (pretty i)).
Proof.
  unfold rel_clauses, enumerate. rewrite list_elem_of_join. split.
  - intros (l & Hc & Hl). apply list_elem_of_fmap in Hl as ([i [br t]] & -> & Hin).
    apply elem_of_lookup_imap in Hin as (j & [br' t'] & [= -> -> ->] & Hj).
    exists j, br', t'. split; [done|].
    apply elem_of_cons in Hc as [->|Hc]; [by left|].
    apply list_elem_of_singleton in Hc as ->. by right.
  - intros (i & br & t & Hi & Hc).
    exists [rel_clause_open rel (pretty i); rel_clause_closed rel (pretty i)]. split.
    + destruct Hc as [-> | ->]; [left | right; left].
    + apply list_elem_of_fmap. exists (i, (br, t)). split; [done|].
      apply elem_of_lookup_imap. eauto.
Qed.

Lemma rel_clauses_slice ρ rel e bt :
  binds_edge ρ rel e → params ρ = filter_params bt →
  (∃ c, c ∈ rel_clauses rel bt ∧ eval ρ c = Some true) ↔ in_slice bt e.
Proof.
  intros Hb Hp. split.
  - intros (c & Hc & Hev). apply elem_of_rel_clauses in Hc as (i & br & t & Hi & Hc).
    destruct (filter_params_lookup _ _ _ _ Hi) as [Hpb Hpt]. rewrite <- Hp in Hpb, Hpt.
    exists br, t. split; [by eapply list_elem_of_lookup_2|].
    destruct Hc as [-> | ->].
    + apply (eval_rel_clause_open _ _ _ _ _ Hpb Hpt _ Hb) in Hev. tauto.
    + apply (eval_rel_clause_closed _ _ _ _ _ Hpb Hpt _ Hb) in Hev. tauto.
  - intros (br & t & Hin & Hbr & Hfrom & Hto).
    apply list_elem_of_lookup in Hin as [i Hi].
    destruct (filter_params_lookup _ _ _ _ Hi) as [Hpb Hpt]. rewrite <- Hp in Hpb, Hpt.
    destruct Hto as [Hto | Hto].
    + exists (rel_clause_open rel (pretty i)). split.
      * apply elem_of_rel_clauses. eauto 6.
      * by apply (eval_rel_clause_open _ _ _ _ _ Hpb Hpt _ Hb).
    + exists (rel_clause_closed rel (pretty i)). split.
      * apply elem_of_rel_clauses. eauto 6.
      * by apply (eval_rel_clause_closed _ _ _ _ _ Hpb Hpt _ Hb).
Qed.

Lemma branch_to_node_clauses_slice ρ rl bl e bt :
  binds_branch ρ bl (Edge.branch e) →
  props ρ rl "from" = VTime (Edge.from e) →
  props ρ rl "to" = edge_time (Edge.to e) →
  params ρ = filter_params bt →
  (∃ c, c ∈ ((λ '(idx, (_, _)), branch_to_node_clause rl bl (pretty idx))
               <$> enumerate bt) ∧ eval ρ c = Some true) ↔ in_slice bt e.
Proof.
  intros Hb Hf Ht Hp. unfold enumerate. split.
  - intros (c & Hc & Hev).
    apply list_elem_of_fmap in Hc as ([i [br t]] & -> & Hin).
    apply elem_of_lookup_imap in Hin as (j & [br' t'] & [= -> -> ->] & Hj).
    destruct (filter_params_lookup _ _ _ _ Hj) as [Hpb Hpt]. rewrite <- Hp in Hpb, Hpt.
    exists br', t'. split; [by eapply list_elem_of_lookup_2|].
    by apply (eval_branch_to_node_clause _ _ _ _ _ Hpb Hpt _ _ Hb Hf Ht) in Hev.
  - intros (br & t & Hin & Hslice).
    apply list_elem_of_lookup in Hin as [i Hi].
    destruct (filter_params_lookup _ _ _ _ Hi) as [Hpb Hpt]. rewrite <- Hp in Hpb, Hpt.
    exists (branch_to_node_clause rl bl (pretty i)). split.
    + apply list_elem_of_fmap. exists (i, (br, t)). split; [done|].
      apply elem_of_lookup_imap. eauto.
    + by apply (eval_branch_to_node_clause _ _ _ _ _ Hpb Hpt _ _ Hb Hf Ht).
Qed.

Lemma branches_to_query_idem (B : Branch.t) (at_ : option Z) :
  branches_to_query B (Some (Timestamp now at_)) = branches_to_query B at_.
Proof. done. Qed.

Lemma rel_clauses_nonempty rel (B : Branch.t) (at_ : option Z) :
  ∃ c cs, rel_clauses rel (branches_to_query B at_) = c :: cs.
Proof.
  destruct (branches_to_query_cases B at_) as [[_ ->] | [_ ->]];
    unfold rel_clauses; simpl; eauto.
Qed.

Lemma selects_true ρ c : selects ρ c = true ↔ eval ρ c = Some true.
Proof. unfold selects. apply bool_decide_eq_true. Qed.

(** The filter of one relationship alias, bare or parenthesised. *)
Lemma relationship_filters_sound (B : Branch.t) (at_ : option Z) rel iop oc e :
  oc ∈ relationship_filters_cond rel (branches_to_query B at_) iop →
  ∃ c, oc = Some c ∧
       ∀ ρ, binds_edge ρ rel e →
            params ρ = filter_params (branches_to_query B at_) →
            (selects ρ c = true ↔ in_slice (branches_to_query B at_) e).
Proof.
  unfold relationship_filters_cond.
  destruct (rel_clauses_nonempty rel B at_) as (c0 & cs & Hcs).
  intros Hoc.
  assert (oc = Some (or_join c0 cs) ∨ oc = Some (CParen (or_join c0 cs))) as Hcase.
  { rewrite Hcs in Hoc. simpl in Hoc. destruct iop; simpl in Hoc.
    - apply list_elem_of_singleton in Hoc. by right.
    - apply elem_of_cons in Hoc as [->|Hoc]; [by left|].
      apply list_elem_of_singleton in Hoc. by right. }
  assert (∀ ρ, binds_edge ρ rel e →
               params ρ = filter_params (branches_to_query B at_) →
               eval ρ (or_join c0 cs) = Some true ↔
               in_slice (branches_to_query B at_) e) as Hsem.
  { intros ρ Hb Hp. rewrite eval_or_join, <- Hcs. by apply rel_clauses_slice. }
  destruct Hcase as [-> | ->]; eexists; (split; [done|]); intros ρ Hb Hp;
    rewrite selects_true; cbn [eval]; by apply Hsem.
Qed.

Lemma relationship_filters_render rel bt iop :
  bt ≠ [] →
  Forall2 (λ text oc, ∃ c, oc = Some c ∧ render c = text)
    (relationship_filters_text rel bt iop) (relationship_filters_cond rel bt iop).
Proof.
  intros Hne. unfold relationship_filters_text, relationship_filters_cond.
  rewrite rel_clauses_text_render.
  destruct (rel_clauses rel bt) as [|c cs] eqn:Hcs.
  { destruct bt as [|[b t] bt]; [done|]. discriminate Hcs. }
  cbn [or_join_list fmap option_fmap option_map].
  destruct iop; cbn [negb app]; repeat constructor; eexists; split; try done;
    cbn [render]; by rewrite render_or_join.
Qed.

(** C2. [get_branches_and_times_to_query(B, t)] is [{default: t}] on the
    default branch; on any other branch it is exactly the two entries
    [{default: t_parent, B: t}], in that order, where [t_parent] is
    [branched_from(B)] unless [B.ephemeral_rebase] holds or
    [t < branched_from(B)], in which case it is [t]. *)
Theorem get_branches_and_times_to_query_spec (B : Branch.t) (at_ : option Z) :
  let t := Timestamp now at_ in
  let t_parent :=
    if Branch.ephemeral_rebase B then t
    else if bool_decide (t < Branch.branched_from B)%Z then t
    else Branch.branched_from B in
  (Branch.name B = default_branch →
   branches_to_query B at_ = [(default_branch, t)]) ∧
  (Branch.name B ≠ default_branch →
   branches_to_query B at_ = [(default_branch, t_parent); (Branch.name B, t)] ∧
   NoDup (PyDict.keys (branches_to_query B at_))).
Proof.
  intros t t_parent.
  destruct (branches_to_query_cases B at_) as [[Hn Hq] | [Hn Hq]]; fold t in Hq.
  - split; [done|]. by intros [].
  - split; [by intros ?|]. intros _. rewrite Hq. split.
    + subst t_parent. by destruct (Branch.ephemeral_rebase B).
    + cbn. apply NoDup_cons. split.
      * intros ->%list_elem_of_singleton. done.
      * apply NoDup_singleton.
Qed.

(** C1, amended. The three filters select exactly the edges for which some
    pair [(br, t_br)] of the branch-query set has [branch = br],
    [from <= t_br] and [to] null or [>= t_br]; the status of the edge plays
    no part in them. The visible edges of the specification are those of
    the selected edges whose status is ACTIVE. *)
Theorem query_filters_select_slice (B : Branch.t) (at_ : option Z) (e : Edge.t) :
  let bt := branches_to_query B at_ in
  (∃ c, get_query_filter_path_cond default_branch now B at_ = Some c ∧
        render c = (get_query_filter_path default_branch now B at_).1 ∧
        ∀ ρ, binds_edge ρ "r" e →
             params ρ = (get_query_filter_path default_branch now B at_).2 →
             (selects ρ c = true ↔ in_slice bt e)) ∧
  (∀ rel_labels iop,
      Forall2 (λ text oc, ∃ c, oc = Some c ∧ render c = text)
        (get_query_filter_relationships default_branch now B rel_labels at_ iop).1
        (get_query_filter_relationships_cond default_branch now B rel_labels at_ iop) ∧
      ∀ rel oc, rel ∈ rel_labels →
        oc ∈ relationship_filters_cond rel bt iop →
        ∃ c, oc = Some c ∧
             ∀ ρ, binds_edge ρ rel e →
                  params ρ =
                    (get_query_filter_relationships default_branch now B
                       rel_labels at_ iop).2 →
                  (selects ρ c = true ↔ in_slice bt e)) ∧
  (∀ rl bl iop,
      ∃ c, get_query_filter_branch_to_node_cond default_branch now B rl bl at_ iop
             = Some c ∧
           render c =
             (get_query_filter_branch_to_node default_branch now B rl bl at_ iop).1 ∧
           ∀ ρ, binds_branch ρ bl (Edge.branch e) →
                props ρ rl "from" = VTime (Edge.from e) →
                props ρ rl "to" = edge_time (Edge.to e) →
                params ρ =
                  (get_query_filter_branch_to_node default_branch now B rl bl at_ iop).2 →
                (selects ρ c = true ↔ in_slice bt e)) ∧
  (visible_spec bt e ↔
   in_slice bt e ∧ Edge.status e = RelationshipStatus.ACTIVE).
Proof.
  intros bt. split; [|split; [|split]].
  - (* get_query_filter_path *)
    unfold get_query_filter_path_cond, get_query_filter_path.
    rewrite branches_to_query_idem. fold bt.
    destruct (rel_clauses_nonempty "r" B at_) as (c0 & cs & Hcs). fold bt in Hcs.
    exists (CParen (or_join c0 cs)). rewrite Hcs. split; [done|]. split.
    + cbn [render fst]. by rewrite render_or_join, rel_clauses_text_render, Hcs.
    + intros ρ Hb Hp. cbn [snd] in Hp. rewrite selects_true. cbn [eval].
      rewrite eval_or_join, <- Hcs. by apply rel_clauses_slice.
  - intros rel_labels iop. split.
    { (* get_query_filter_relationships, the text *)
    unfold get_query_filter_relationships, get_query_filter_relationships_cond.
    rewrite branches_to_query_idem. fold bt. cbn [fst].
    induction rel_labels as [|rel rels IH]; [constructor|].
    rewrite !fmap_cons.
    change (mjoin (?x :: ?l)) with (x ++ mjoin l)%list.
    apply Forall2_app; [|done].
    apply relationship_filters_render.
    subst bt. by destruct (branches_to_query_cases B at_) as [[_ ->] | [_ ->]]. }
    (* get_query_filter_relationships, the meaning *)
    intros rel oc _ Hoc.
    destruct (relationship_filters_sound B at_ rel iop oc e Hoc) as (c & -> & Hc).
    exists c. split; [done|]. intros ρ Hb Hp. apply Hc; [done|].
    rewrite Hp. unfold get_query_filter_relationships. cbn [snd].
    by rewrite branches_to_query_idem.
  - (* get_query_filter_branch_to_node *)
    intros rl bl iop.
    unfold get_query_filter_branch_to_node_cond, get_query_filter_branch_to_node.
    fold bt.
    set (cl := (λ '(idx, (_, _)), branch_to_node_clause rl bl (pretty idx))
                 <$> enumerate bt).
    assert (∃ c0 cs, cl = c0 :: cs) as (c0 & cs & Hcl).
    { subst cl bt.
      destruct (branches_to_query_cases B at_) as [[_ ->] | [_ ->]]; simpl; eauto. }
    rewrite Hcl. cbn [or_join_list mbind option_bind].
    eexists. split; [done|]. split.
    + assert (((λ '(idx, (_, _)), branch_to_node_text rl bl idx) <$> enumerate bt)
              = render <$> cl) as ->.
      { subst cl. rewrite <- list_fmap_compose. apply list_fmap_ext.
        intros i [idx [br t]] _. symmetry. apply render_branch_to_node_clause. }
      rewrite Hcl. destruct iop; cbn [negb fst render]; by rewrite render_or_join.
    + intros ρ Hb Hf Ht Hp.
      assert (params ρ = filter_params bt) as Hp' by (by destruct iop).
      rewrite selects_true.
      assert (eval ρ (if negb iop then or_join c0 cs else CParen (or_join c0 cs))
              = eval ρ (or_join c0 cs)) as -> by (by destruct iop).
      rewrite eval_or_join, <- Hcl. by apply branch_to_node_clauses_slice.
  - split.
    + intros (br & t & Hin & Hbr & Hf & Ht & Hs). split; [by exists br, t|done].
    + intros [(br & t & Hin & Hbr & Hf & Ht) Hs]. by exists br, t.
Qed.
End FilterProps.

(** C2, applied to a branch cut from [main] at time 50 and read at 70. *)
Lemma get_branches_and_times_to_query_spec_witness :
  get_branches_and_times_to_query "main" 100 branch2 (Some 70) =
    [("main", 50%Z); ("branch2", 70%Z)].
Proof.
  apply (get_branches_and_times_to_query_spec "main" 100 branch2 (Some 70%Z)).
  simpl. discriminate.
Defined.

(** C1, applied: on [main] at time 10 the path filter keeps the edge that
    records a deletion. *)
Lemma query_filters_select_slice_witness :
  ∃ c, get_query_filter_path_cond "main" 100 main_branch (Some 10%Z) = Some c ∧
       selects (edge_env "r" "b" deleted_edge
                  (get_query_filter_path "main" 100 main_branch (Some 10%Z)).2) c = true.
Proof.
  destruct (query_filters_select_slice "main" 100 main_branch (Some 10%Z) deleted_edge)
    as [(c & Hc & _ & Hsel) _].
  exists c. split; [exact Hc|]. apply Hsel.
  - repeat split; reflexivity.
  - reflexivity.
  - exists "main", 10%Z. split; [left|]. repeat split; [simpl; lia | by left].
Defined.

(** C1 as stated fails: the path filter computed for [main] at time 10 keeps
    an edge whose status is DELETED, an edge that is not visible. *)
Lemma query_filters_exclude_inactive_counterexample :
  let ρ := edge_env "r" "b" deleted_edge
             (get_query_filter_path "main" 100 main_branch (Some 10%Z)).2 in
  binds_edge ρ "r" deleted_edge ∧
  (∃ c, get_query_filter_path_cond "main" 100 main_branch (Some 10%Z) = Some c ∧
        render c = (get_query_filter_path "main" 100 main_branch (Some 10%Z)).1 ∧
        selects ρ c = true) ∧
  Edge.status deleted_edge ≠ RelationshipStatus.ACTIVE ∧
  ¬ visible_spec (get_branches_and_times_to_query "main" 100 main_branch (Some 10%Z))
      deleted_edge.
Proof.
  intros ρ. split; [repeat split; reflexivity|]. split; [|split].
  - eexists. split; [reflexivity|]. split; [reflexivity|]. vm_compute. reflexivity.
  - discriminate.
  - intros (br & t & _ & _ & _ & _ & Hs). discriminate Hs.
Qed.

(** ** Scalar serialisation *)

(** C10. For the scalar serialisation of [BaseAttribute],
    [from_db(to_db(v)) = v] for every value [v] other than [None] and the
    string ["NULL"]; [to_db(None)] is ["NULL"] and [from_db("NULL")] is
    [None], so a value equal to the string ["NULL"] comes back as [None],
    exactly as an absent value does. *)
Theorem to_db_from_db_roundtrip (v : pyval) :
  (v ≠ PNone → v ≠ PStr "NULL" →
   BaseAttribute.from_db (BaseAttribute.to_db v) = v) ∧
  BaseAttribute.to_db PNone = PStr "NULL" ∧
  BaseAttribute.from_db (PStr "NULL") = PNone ∧
  BaseAttribute.from_db (BaseAttribute.to_db (PStr "NULL")) = PNone ∧
  BaseAttribute.from_db (BaseAttribute.to_db (PStr "NULL")) =
    BaseAttribute.from_db (BaseAttribute.to_db PNone).
Proof.
  split; [|done].
  intros Hnone Hnull. unfold BaseAttribute.to_db, BaseAttribute.from_db.
  destruct (decide (v = PNone)) as [|_]; [done|].
  unfold BaseAttribute.serialize, BaseAttribute.deserialize.
  by destruct (decide (v = PStr "NULL")).
Qed.

Lemma to_db_from_db_roundtrip_witness :
  BaseAttribute.from_db (BaseAttribute.to_db (PStr "#444444")) = PStr "#444444".
Proof.
  apply (to_db_from_db_roundtrip (PStr "#444444")); discriminate.
Defined.

(** ** Construction of a diff *)

Section DiffInitProps.
Variable now : Z.
Variable get_branch : string → Branch.t.

(** C8. [Diff(...)] and [DiffQuery(...)] raise when the branch is the
    default branch and [diff_from] is not given, and when the resolved
    [diff_to] is earlier than the resolved [diff_from]. On a branch that is
    not the default one a missing [diff_from] is [branched_from], and
    nothing is raised when [diff_from <= diff_to]. *)
Theorem diff_init_guards (B : Branch.t) (branch_only : bool) (diff_from diff_to : option Z) :
  let t_to := Timestamp now diff_to in
  (Branch.is_default B = true → diff_from = None →
   (∃ msg, Diff_init now get_branch B branch_only diff_from diff_to
           = Raise (ValueError msg)) ∧
   (∃ msg, DiffQuery_init now B diff_from diff_to = Raise (ValueError msg))) ∧
  (∀ f, resolved_diff_from B diff_from = Some f → (t_to < f)%Z →
   Diff_init now get_branch B branch_only diff_from diff_to
     = Raise (ValueError "diff_to must be later than diff_from") ∧
   DiffQuery_init now B diff_from diff_to
     = Raise (ValueError "diff_to must be later than diff_from")) ∧
  (Branch.is_default B = false → diff_from = None →
   resolved_diff_from B diff_from = Some (Branch.branched_from B)) ∧
  (∀ f, resolved_diff_from B diff_from = Some f → (f ≤ t_to)%Z →
   (∃ d, Diff_init now get_branch B branch_only diff_from diff_to = Ok d ∧
         Diff.diff_from d = f ∧ Diff.diff_to d = t_to) ∧
   (∃ q, DiffQuery_init now B diff_from diff_to = Ok q ∧
         DiffQuery.diff_from q = f ∧ DiffQuery.diff_to q = t_to)).
Proof.
  intros t_to. unfold Diff_init, DiffQuery_init, resolved_diff_from. fold t_to.
  split; [|split; [|split]].
  - intros Hd ->. rewrite Hd. simpl. eauto.
  - intros f Hf Hlt.
    destruct diff_from as [f'|]; [|destruct (Branch.is_default B)];
      simplify_eq/=; by rewrite bool_decide_eq_true_2.
  - by intros -> ->.
  - intros f Hf Hle.
    destruct diff_from as [f'|]; [|destruct (Branch.is_default B)];
      simplify_eq/=; (rewrite bool_decide_eq_false_2 by lia); eauto 10.
Qed.
End DiffInitProps.

(** C8, applied to a branch cut at 50 and diffed at 100 without bounds. *)
Lemma diff_init_guards_witness :
  ∃ d, Diff_init 100 (λ _, main_branch) branch2 false None None = Ok d ∧
       Diff.diff_from d = 50%Z ∧ Diff.diff_to d = 100%Z.
Proof.
  apply (diff_init_guards 100 (λ _, main_branch) branch2 false None None).
  - reflexivity.
  - simpl. lia.
Defined.

(** ** Nodes and attributes of a diff *)

Lemma results_at_touch rs b b' :
  results_at (results_touch rs b) b' = results_at rs b'.
Proof.
  unfold results_touch, results_at.
  destruct (PyDict.mem rs b) eqn:Hm; [done|].
  destruct (decide (b = b')) as [->|Hne].
  - rewrite get_set_eq. apply mem_false in Hm. by rewrite Hm.
  - by rewrite get_set_ne.
Qed.

Lemma results_at_set_node_eq rs b n e :
  results_at (results_set_node rs b n e) b =
  BranchResults.mk (PyDict.set (BranchResults.nodes (results_at rs b)) n e)
                   (BranchResults.rels (results_at rs b)).
Proof.
  unfold results_set_node. unfold results_at at 1. rewrite get_set_eq.
  by rewrite results_at_touch.
Qed.

Lemma results_at_set_node_ne rs b b' n e :
  b ≠ b' → results_at (results_set_node rs b n e) b' = results_at rs b'.
Proof.
  intros Hne. unfold results_set_node. unfold results_at at 1.
  rewrite get_set_ne by done. apply results_at_touch.
Qed.

Lemma results_node_set_node_eq rs b n e :
  results_node (results_set_node rs b n e) b n = Some e.
Proof. unfold results_node. rewrite results_at_set_node_eq. apply get_set_eq. Qed.

Lemma attr_action_Ok node_act attr_from diff_from status :
  attr_action node_act (Some attr_from) diff_from status =
  Ok (if bool_decide (node_act = ADDED) && bool_decide (diff_from ≤ attr_from)%Z
         && bool_decide (status = RelationshipStatus.ACTIVE)
      then (ADDED, Some attr_from)
      else if bool_decide (diff_from ≤ attr_from)%Z
              && bool_decide (status = RelationshipStatus.DELETED)
      then (REMOVED, Some attr_from)
      else (UPDATED, None)).
Proof.
  unfold attr_action. simpl.
  destruct (decide (node_act = ADDED)) as [->|Hne]; simpl.
  - by repeat case_match.
  - rewrite (bool_decide_eq_false_2 _ Hne). simpl. by repeat case_match.
Qed.

Lemma ensure_node_spec rs result :
  let b := Rel.branch (AttrRow.r2 result) in
  let n := Vertex.uuid (AttrRow.n result) in
  ∃ node, results_node (diff_nodes_ensure_node rs result) b n = Some node ∧
          (results_node rs b n = Some node ∨
           results_node rs b n = None ∧ NodeDiffElement.action node = UPDATED ∧
           NodeDiffElement.attributes node = []).
Proof.
  intros b n. unfold diff_nodes_ensure_node. fold b n.
  rewrite results_at_touch.
  destruct (PyDict.mem (BranchResults.nodes (results_at rs b)) n) eqn:Hm; simpl.
  - apply mem_true in Hm as [node Hnode]. exists node.
    unfold results_node. rewrite results_at_touch. auto.
  - apply mem_false in Hm. eexists. split.
    + apply results_node_set_node_eq.
    + right. by repeat split.
Qed.

(** C7. Second loop of [_calculate_diff_nodes], for a row whose attribute is
    not in the results yet. When the attribute edge did not end before
    [diff_to], the element of the attribute is created, with the action
    ADDED when the owning node's action is ADDED and the attribute edge
    starts at or after [diff_from] and is ACTIVE; REMOVED when the attribute
    edge starts at or after [diff_from] and is DELETED; and UPDATED, with no
    [changed_at], in every other case. An attribute edge that ended before
    [diff_to] creates no element, and an edge without a start raises. *)
Theorem attribute_action_classification (diff_from diff_to : Z)
    (rs : list (string * BranchResults.t)) (q : gset string * gset string)
    (result : AttrRow.t) :
  let branch_name := Rel.branch (AttrRow.r2 result) in
  let node_id := Vertex.uuid (AttrRow.n result) in
  let attr_name := Vertex.name (AttrRow.a result) in
  let r1 := AttrRow.r1 result in
  results_attr rs branch_name node_id attr_name = None →
  (ended_before (Rel.to r1) diff_to = false →
   ∀ attr_from, Rel.from r1 = Some attr_from →
   ∃ rs' q' attr,
     diff_nodes_attr_row diff_from diff_to (rs, q) result = Ok (rs', q') ∧
     results_attr rs' branch_name node_id attr_name = Some attr ∧
     let node_added :=
       bool_decide (NodeDiffElement.action <$> results_node rs branch_name node_id
                    = Some ADDED) in
     let recent := bool_decide (diff_from ≤ attr_from)%Z in
     if node_added && recent && bool_decide (Rel.status r1 = RelationshipStatus.ACTIVE)
     then NodeAttributeDiffElement.action attr = ADDED ∧
          NodeAttributeDiffElement.changed_at attr = Some attr_from
     else if recent && bool_decide (Rel.status r1 = RelationshipStatus.DELETED)
     then NodeAttributeDiffElement.action attr = REMOVED ∧
          NodeAttributeDiffElement.changed_at attr = Some attr_from
     else NodeAttributeDiffElement.action attr = UPDATED ∧
          NodeAttributeDiffElement.changed_at attr = None) ∧
  (ended_before (Rel.to r1) diff_to = true →
   ∃ rs', diff_nodes_attr_row diff_from diff_to (rs, q) result = Ok (rs', q) ∧
          results_attr rs' branch_name node_id attr_name = None) ∧
  (ended_before (Rel.to r1) diff_to = false → Rel.from r1 = None →
   ∃ msg, diff_nodes_attr_row diff_from diff_to (rs, q) result = Raise (TypeError msg)).
Proof.
  intros branch_name node_id attr_name r1 Hbefore.
  unfold diff_nodes_attr_row. destruct q as [q_nodes q_fields].
  fold branch_name node_id attr_name r1.
  destruct (ensure_node_spec rs result) as (node & Hnode & Horigin).
  fold branch_name node_id in Hnode, Horigin.
  set (rs1 := diff_nodes_ensure_node rs result) in *.
  assert (PyDict.get (NodeDiffElement.attributes node) attr_name = None) as Hfresh.
  { destruct Horigin as [Hsame | (_ & _ & ->)]; [|done].
    unfold results_attr in Hbefore. by rewrite Hsame in Hbefore. }
  pose proof Hnode as Hnode'. unfold results_node in Hnode.
  unfold dict_item. rewrite Hnode. cbn [mbind res_bind].
  rewrite (proj2 (mem_false _ _) Hfresh). cbn [negb].
  split; [|split].
  - intros -> attr_from ->. rewrite attr_action_Ok. cbn [mbind res_bind].
    assert (bool_decide (NodeDiffElement.action <$> results_node rs branch_name node_id
                         = Some ADDED)
            = bool_decide (NodeDiffElement.action node = ADDED)) as ->.
    { apply bool_decide_ext. destruct Horigin as [-> | (-> & Hact & _)]; simpl.
      - split; congruence.
      - rewrite Hact. split; discriminate. }
    set (cls := if bool_decide (NodeDiffElement.action node = ADDED)
                   && bool_decide (diff_from ≤ attr_from)%Z
                   && bool_decide (Rel.status r1 = RelationshipStatus.ACTIVE)
                then (ADDED, Some attr_from)
                else if bool_decide (diff_from ≤ attr_from)%Z
                        && bool_decide (Rel.status r1 = RelationshipStatus.DELETED)
                then (REMOVED, Some attr_from)
                else (UPDATED, None)).
    destruct cls as [action changed_at] eqn:Hcls.
    eexists _, _, _. split; [reflexivity|].
    unfold results_attr. rewrite results_node_set_node_eq. cbn.
    rewrite get_set_eq. split; [reflexivity|].
    cbn. subst cls. by repeat case_match; simplify_eq.
  - intros ->. exists rs1. split; [done|].
    unfold results_attr. by rewrite Hnode'.
  - intros -> ->. unfold attr_action, ts_ge.
    destruct (decide (NodeDiffElement.action node = ADDED)); cbn; eauto.
Qed.

(** C7, applied to three rows of [branch2]: an attribute removed at 70 from
    a node that was neither added nor removed is REMOVED; an attribute
    created at 70 with its node is ADDED; an attribute whose edge dates from
    before the branch is UPDATED. *)
Lemma attribute_action_classification_witness :
  (∃ rs' q' attr,
     diff_nodes_attr_row 50 100 ([], (∅, ∅)) attr_row_removed = Ok (rs', q') ∧
     results_attr rs' "branch2" (Vertex.uuid vertex_C) "name" = Some attr ∧
     NodeAttributeDiffElement.action attr = REMOVED ∧
     NodeAttributeDiffElement.changed_at attr = Some 70%Z) ∧
  (∃ rs' q' attr,
     diff_nodes_attr_row 50 100 (results_after_node_loop, (∅, ∅)) attr_row_added
       = Ok (rs', q') ∧
     results_attr rs' "branch2" (Vertex.uuid vertex_A) "name" = Some attr ∧
     NodeAttributeDiffElement.action attr = ADDED ∧
     NodeAttributeDiffElement.changed_at attr = Some 70%Z) ∧
  (∃ rs' q' attr,
     diff_nodes_attr_row 50 100 ([], (∅, ∅)) attr_row_branch2 = Ok (rs', q') ∧
     results_attr rs' "branch2" (Vertex.uuid vertex_C) "name" = Some attr ∧
     NodeAttributeDiffElement.action attr = UPDATED ∧
     NodeAttributeDiffElement.changed_at attr = None).
Proof.
  split; [|split].
  - destruct (attribute_action_classification 50 100 [] (∅, ∅) attr_row_removed
                eq_refl) as (Hopen & _).
    destruct (Hopen eq_refl 70%Z eq_refl) as (rs' & q' & attr & Hrow & Hattr & Hcls).
    exists rs', q', attr. split; [exact Hrow|]. split; [exact Hattr|]. exact Hcls.
  - destruct (attribute_action_classification 50 100 results_after_node_loop (∅, ∅)
                attr_row_added eq_refl) as (Hopen & _).
    destruct (Hopen eq_refl 70%Z eq_refl) as (rs' & q' & attr & Hrow & Hattr & Hcls).
    exists rs', q', attr. split; [exact Hrow|]. split; [exact Hattr|]. exact Hcls.
  - destruct (attribute_action_classification 50 100 [] (∅, ∅) attr_row_branch2
                eq_refl) as (Hopen & _).
    destruct (Hopen eq_refl 10%Z eq_refl) as (rs' & q' & attr & Hrow & Hattr & Hcls).
    exists rs', q', attr. split; [exact Hrow|]. split; [exact Hattr|]. exact Hcls.
Defined.

(** ** Modified paths *)

Lemma paths_at_add paths b p b' p' :
  p' ∈ paths_at (paths_add paths b p) b' ↔
  p' ∈ paths_at paths b' ∨ (b' = b ∧ p' = p).
Proof.
  unfold paths_at, paths_add. destruct (decide (b = b')) as [->|Hne].
  - rewrite get_set_eq. simpl. rewrite elem_of_union, elem_of_singleton. naive_solver.
  - rewrite get_set_ne by done. naive_solver.
Qed.

Lemma adds_paths_add {A} (branch : string) (mk : A → path) :
  adds (λ paths x, paths_add paths branch (mk x)) (λ x b p, b = branch ∧ p = mk x).
Proof.
  intros acc x. split; [|split].
  - intros b p. apply paths_at_add.
  - intros b. unfold paths_add. rewrite elem_of_keys_set. naive_solver.
  - apply NoDup_keys_set.
Qed.

Lemma adds_foldl {A} f (P : A → string → path → Prop) :
  adds f P →
  adds (λ acc l, foldl f acc l) (λ l b p, ∃ x, x ∈ l ∧ P x b p).
Proof.
  intros Hf acc l. revert acc. induction l as [|x l IH]; intros acc; simpl.
  - split; [|split]; [| |done].
    + intros b p. split; [by left|]. intros [?|(x & Hx & _)]; [done|].
      by apply elem_of_nil in Hx.
    + intros b. split; [by left|]. intros [?|(p & x & Hx & _)]; [done|].
      by apply elem_of_nil in Hx.
  - destruct (Hf acc x) as (Hp & Hk & Hnd).
    destruct (IH (f acc x)) as (IHp & IHk & IHnd).
    split; [|split].
    + intros b p. rewrite IHp, Hp. setoid_rewrite elem_of_cons. naive_solver.
    + intros b. rewrite IHk, Hk. setoid_rewrite elem_of_cons. naive_solver.
    + auto.
Qed.

Lemma adds_ext {A} f g (P Q : A → string → path → Prop) :
  (∀ acc x, f acc x = g acc x) → (∀ x b p, P x b p ↔ Q x b p) →
  adds f P → adds g Q.
Proof.
  intros Hfg HPQ Hf acc x. destruct (Hf acc x) as (Hp & Hk & Hnd).
  rewrite <- Hfg. split; [|split]; [| |done].
  - intros b p. by rewrite Hp, HPQ.
  - intros b. rewrite Hk. by setoid_rewrite HPQ.
Qed.

Lemma adds_skip {A} (skip : A → bool) f (P : A → string → path → Prop) :
  adds f P →
  adds (λ acc x, if skip x then acc else f acc x)
       (λ x b p, skip x = false ∧ P x b p).
Proof.
  intros Hf acc x. destruct (Hf acc x) as (Hp & Hk & Hnd).
  destruct (skip x).
  - split; [|split]; [| |done]; intros; naive_solver.
  - split; [|split]; [| |done].
    + intros b p. rewrite Hp. naive_solver.
    + intros b. rewrite Hk. naive_solver.
Qed.


Lemma adds_node_paths bo name :
  adds (λ acc nodes, node_paths bo name nodes acc)
       (λ nodes b p, ∃ data, (b, data) ∈ nodes ∧
                             (bo && negb (bool_decide (b = name))) = false ∧
                             node_path_of data p).
Proof.
  unfold node_paths.
  (* properties of one attribute *)
  assert (∀ branch node_id attr_name,
    adds (λ paths (x : string * PropertyDiffElement.t),
            let '(prop_type, _) := x in
            paths_add paths branch ("node", node_id, attr_name, prop_type))
         (λ x b p, b = branch ∧ p = ("node", node_id, attr_name, x.1))) as H3.
  { intros branch node_id attr_name.
    eapply adds_ext;
      [| |apply (adds_paths_add branch
                   (λ x : string * PropertyDiffElement.t,
                      ("node", node_id, attr_name, x.1)))];
      [by intros acc [??] | done]. }
  (* attributes of one node *)
  assert (∀ branch node_id,
    adds (λ paths (x : string * NodeAttributeDiffElement.t),
            let '(attr_name, attr) := x in
            foldl (λ paths '(prop_type, _),
                     paths_add paths branch ("node", node_id, attr_name, prop_type))
                  paths (NodeAttributeDiffElement.properties attr))
         (λ x b p, ∃ y, y ∈ NodeAttributeDiffElement.properties x.2 ∧
                        b = branch ∧ p = ("node", node_id, x.1, y.1))) as H2.
  { intros branch node_id acc [attr_name attr].
    apply (adds_foldl _ _ (H3 branch node_id attr_name) acc
             (NodeAttributeDiffElement.properties attr)). }
  (* nodes of one branch *)
  assert (∀ branch,
    adds (λ paths (x : string * NodeDiffElement.t),
            let '(node_id, node) := x in
            foldl (λ paths '(attr_name, attr),
                     foldl (λ paths '(prop_type, _),
                              paths_add paths branch
                                ("node", node_id, attr_name, prop_type))
                           paths (NodeAttributeDiffElement.properties attr))
                  paths (NodeDiffElement.attributes node))
         (λ x b p, ∃ a, a ∈ NodeDiffElement.attributes x.2 ∧
                   ∃ y, y ∈ NodeAttributeDiffElement.properties a.2 ∧
                        b = branch ∧ p = ("node", x.1, a.1, y.1))) as H1.
  { intros branch acc [node_id node].
    apply (adds_foldl _ _ (H2 branch node_id) acc (NodeDiffElement.attributes node)). }
  (* one branch *)
  assert (adds (λ paths (x : string * list (string * NodeDiffElement.t)),
                  let '(branch_name, data) := x in
                  if bo && negb (bool_decide (branch_name = name)) then paths
                  else
                    foldl (λ paths '(node_id, node),
                      foldl (λ paths '(attr_name, attr),
                        foldl (λ paths '(prop_type, _),
                                 paths_add paths branch_name
                                   ("node", node_id, attr_name, prop_type))
                              paths (NodeAttributeDiffElement.properties attr))
                            paths (NodeDiffElement.attributes node))
                          paths data)
               (λ x b p, (bo && negb (bool_decide (x.1 = name))) = false ∧
                         ∃ n, n ∈ x.2 ∧
                         ∃ a, a ∈ NodeDiffElement.attributes n.2 ∧
                         ∃ y, y ∈ NodeAttributeDiffElement.properties a.2 ∧
                              b = x.1 ∧ p = ("node", n.1, a.1, y.1))) as H0.
  { intros acc [branch_name data]. cbn [fst snd].
    destruct (adds_foldl _ _ (H1 branch_name) acc data) as (Hp & Hk & Hnd).
    destruct (bo && negb (bool_decide (branch_name = name))).
    - split; [|split]; [| |done]; intros; naive_solver.
    - split; [|split]; [| |done].
      + intros b p. rewrite Hp. naive_solver.
      + intros b. rewrite Hk. naive_solver. }
  intros acc nodes.
  destruct (adds_foldl _ _ H0 acc nodes) as (Hp & Hk & Hnd).
  assert (∀ b p,
    (∃ x, x ∈ nodes ∧ (bo && negb (bool_decide (x.1 = name))) = false ∧
          ∃ n, n ∈ x.2 ∧ ∃ a, a ∈ NodeDiffElement.attributes n.2 ∧
          ∃ y, y ∈ NodeAttributeDiffElement.properties a.2 ∧
               b = x.1 ∧ p = ("node", n.1, a.1, y.1)) ↔
    (∃ data, (b, data) ∈ nodes ∧
             (bo && negb (bool_decide (b = name))) = false ∧
             node_path_of data p)) as Heq.
  { intros b p. unfold node_path_of. split.
    - intros ([b' data] & Hin & Hskip & [n node] & Hn & [a attr] & Ha &
              [t prop] & Ht & -> & ->). simpl in *.
      exists data. split; [done|]. split; [done|]. by exists n, node, a, attr, t, prop.
    - intros (data & Hin & Hskip & n & node & a & attr & t & prop & Hn & Ha & Ht & ->).
      exists (b, data). split; [done|]. split; [done|].
      exists (n, node). split; [done|]. exists (a, attr). split; [done|].
      by exists (t, prop). }
  split; [|split]; [| |done].
  - intros b p. by rewrite Hp, Heq.
  - intros b. rewrite Hk. by setoid_rewrite Heq.
Qed.

Lemma adds_rel_paths bo name :
  adds (λ acc rels, rel_paths bo name rels acc)
       (λ rels b p, ∃ data, (b, data) ∈ rels ∧
                            (bo && negb (bool_decide (b = name))) = false ∧
                            rel_path_of data p).
Proof.
  unfold rel_paths.
  (* properties of one relationship *)
  assert (∀ branch rel_name rel_id,
    adds (λ paths (x : string * PropertyDiffElement.t),
            let '(prop_type, _) := x in
            paths_add paths branch ("relationships", rel_name, rel_id, prop_type))
         (λ x b p, b = branch ∧ p = ("relationships", rel_name, rel_id, x.1))) as H3.
  { intros branch rel_name rel_id.
    eapply adds_ext;
      [| |apply (adds_paths_add branch
                   (λ x : string * PropertyDiffElement.t,
                      ("relationships", rel_name, rel_id, x.1)))];
      [by intros acc [??] | done]. }
  (* relationships of one name *)
  assert (∀ branch rel_name,
    adds (λ paths (x : string * RelationshipDiffElement.t),
            let '(rel_id, rel) := x in
            foldl (λ paths '(prop_type, _),
                     paths_add paths branch
                       ("relationships", rel_name, rel_id, prop_type))
                  paths (RelationshipDiffElement.properties rel))
         (λ x b p, ∃ y, y ∈ RelationshipDiffElement.properties x.2 ∧
                        b = branch ∧ p = ("relationships", rel_name, x.1, y.1))) as H2.
  { intros branch rel_name acc [rel_id rel].
    apply (adds_foldl _ _ (H3 branch rel_name rel_id) acc
             (RelationshipDiffElement.properties rel)). }
  (* names of one branch *)
  assert (∀ branch,
    adds (λ paths (x : string * list (string * RelationshipDiffElement.t)),
            let '(rel_name, rels) := x in
            foldl (λ paths '(rel_id, rel),
                     foldl (λ paths '(prop_type, _),
                              paths_add paths branch
                                ("relationships", rel_name, rel_id, prop_type))
                           paths (RelationshipDiffElement.properties rel))
                  paths rels)
         (λ x b p, ∃ r, r ∈ x.2 ∧
                   ∃ y, y ∈ RelationshipDiffElement.properties r.2 ∧
                        b = branch ∧ p = ("relationships", x.1, r.1, y.1))) as H1.
  { intros branch acc [rel_name rels].
    apply (adds_foldl _ _ (H2 branch rel_name) acc rels). }
  (* one branch *)
  assert (adds (λ paths (x : string * list (string * list (string * RelationshipDiffElement.t))),
                  let '(branch_name, data) := x in
                  if bo && negb (bool_decide (branch_name = name)) then paths
                  else
                    foldl (λ paths '(rel_name, rels),
                      foldl (λ paths '(rel_id, rel),
                        foldl (λ paths '(prop_type, _),
                                 paths_add paths branch_name
                                   ("relationships", rel_name, rel_id, prop_type))
                              paths (RelationshipDiffElement.properties rel))
                            paths rels)
                          paths data)
               (λ x b p, (bo && negb (bool_decide (x.1 = name))) = false ∧
                         ∃ n, n ∈ x.2 ∧
                         ∃ r, r ∈ n.2 ∧
                         ∃ y, y ∈ RelationshipDiffElement.properties r.2 ∧
                              b = x.1 ∧ p = ("relationships", n.1, r.1, y.1))) as H0.
  { intros acc [branch_name data]. cbn [fst snd].
    destruct (adds_foldl _ _ (H1 branch_name) acc data) as (Hp & Hk & Hnd).
    destruct (bo && negb (bool_decide (branch_name = name))).
    - split; [|split]; [| |done]; intros; naive_solver.
    - split; [|split]; [| |done].
      + intros b p. rewrite Hp. naive_solver.
      + intros b. rewrite Hk. naive_solver. }
  intros acc rels.
  destruct (adds_foldl _ _ H0 acc rels) as (Hp & Hk & Hnd).
  assert (∀ b p,
    (∃ x, x ∈ rels ∧ (bo && negb (bool_decide (x.1 = name))) = false ∧
          ∃ n, n ∈ x.2 ∧ ∃ r, r ∈ n.2 ∧
          ∃ y, y ∈ RelationshipDiffElement.properties r.2 ∧
               b = x.1 ∧ p = ("relationships", n.1, r.1, y.1)) ↔
    (∃ data, (b, data) ∈ rels ∧
             (bo && negb (bool_decide (b = name))) = false ∧
             rel_path_of data p)) as Heq.
  { intros b p. unfold rel_path_of. split.
    - intros ([b' data] & Hin & Hskip & [n rs] & Hn & [r rel] & Hr &
              [t prop] & Ht & -> & ->). simpl in *.
      exists data. split; [done|]. split; [done|]. by exists n, rs, r, rel, t, prop.
    - intros (data & Hin & Hskip & n & rs & r & rel & t & prop & Hn & Hr & Ht & ->).
      exists (b, data). split; [done|]. split; [done|].
      exists (n, rs). split; [done|]. exists (r, rel). split; [done|].
      by exists (t, prop). }
  split; [|split]; [| |done].
  - intros b p. by rewrite Hp, Heq.
  - intros b. rewrite Hk. by setoid_rewrite Heq.
Qed.

Section DiffObjectProps.
Variable now : Z.
Variable store : Store.t.

Lemma get_nodes_fields self nodes self' :
  get_nodes now store self = Ok (nodes, self') →
  Diff.branch self' = Diff.branch self ∧
  Diff.branch_only self' = Diff.branch_only self.
Proof.
  unfold get_nodes. destruct (Diff._calculated_diff_nodes_at self).
  - by intros [= _ <-].
  - unfold _calculate_diff_nodes.
    destruct (for_each _ _ _) as [rs1|]; [|done]. cbn [mbind res_bind].
    destruct (for_each _ _ _) as [[rs2 [q1 q2]]|]; [|done]. cbn [mbind res_bind].
    destruct (for_each _ _ _) as [rs3|]; [|done]. cbn [mbind res_bind].
    by intros [= _ <-].
Qed.

Lemma get_relationships_fields self rels self' :
  get_relationships now store self = Ok (rels, self') →
  Diff.branch self' = Diff.branch self ∧
  Diff.branch_only self' = Diff.branch_only self.
Proof.
  unfold get_relationships. destruct (Diff._calculated_diff_rels_at self).
  - by intros [= _ <-].
  - unfold _calculated_diff_rels.
    destruct (for_each _ _ _) as [[rs1 ids1]|]; [|done]. cbn [mbind res_bind].
    destruct (foldl _ _ _) as [rs2 ids2].
    destruct (for_each _ _ _) as [rs3|]; [|done]. cbn [mbind res_bind].
    by intros [= _ <-].
Qed.

(** What [get_modified_paths] returns, in terms of what [get_nodes] and
    [get_relationships] return. *)
Lemma get_modified_paths_spec self paths self' :
  get_modified_paths now store self = Ok (paths, self') →
  ∃ nodes self1 rels,
    get_nodes now store self = Ok (nodes, self1) ∧
    get_relationships now store self1 = Ok (rels, self') ∧
    NoDup (PyDict.keys paths) ∧
    (∀ b, b ∈ PyDict.keys paths ↔ ∃ p, p ∈ paths_at paths b) ∧
    ∀ b p, p ∈ paths_at paths b ↔
      (Diff.branch_only self
       && negb (bool_decide (b = Branch.name (Diff.branch self)))) = false ∧
      ((∃ data, (b, data) ∈ nodes ∧ node_path_of data p) ∨
       (∃ data, (b, data) ∈ rels ∧ rel_path_of data p)).
Proof.
  unfold get_modified_paths.
  destruct (get_nodes now store self) as [[nodes self1]|] eqn:Hn; [|done].
  cbn [mbind res_bind].
  destruct (get_relationships now store self1) as [[rels self2]|] eqn:Hr; [|done].
  cbn [mbind res_bind]. intros [= <- <-].
  destruct (get_nodes_fields _ _ _ Hn) as [Hb1 Ho1].
  destruct (get_relationships_fields _ _ _ Hr) as [Hb2 Ho2].
  rewrite Hb2, Ho2, Hb1, Ho1.
  set (bo := Diff.branch_only self). set (name := Branch.name (Diff.branch self)).
  destruct (adds_node_paths bo name [] nodes) as (Hp1 & Hk1 & Hnd1).
  destruct (adds_rel_paths bo name (node_paths bo name nodes []) rels)
    as (Hp2 & Hk2 & Hnd2).
  exists nodes, self1, rels. split; [done|]. split; [done|]. split; [|split].
  - apply Hnd2, Hnd1. constructor.
  - intros b. rewrite Hk2, Hk1. split.
    + intros [[Hnil|[p Hp]]|[p Hp]].
      * by apply elem_of_nil in Hnil.
      * exists p. apply Hp2. left. apply Hp1. by right.
      * exists p. apply Hp2. by right.
    + intros [p Hp]. apply Hp2 in Hp as [Hp|Hp]; [|right; eauto].
      apply Hp1 in Hp as [Hp|Hp]; [|left; right; eauto].
      by apply elem_of_empty in Hp.
  - intros b p. rewrite Hp2, Hp1. unfold paths_at at 1. simpl.
    rewrite elem_of_empty. naive_solver.
Qed.
End DiffObjectProps.

Section ConflictProps.
Variable now : Z.
Variable store : Store.t.

Lemma conflicts_of_two b0 s0 b1 s1 :
  b0 ≠ b1 → conflicts_of_paths [(b0, s0); (b1, s1)] = Ok (s0 ∩ s1).
Proof.
  intros Hne. unfold conflicts_of_paths, dict_item. cbn.
  rewrite bool_decide_eq_false_2 by lia.
  destruct (decide (b0 = b0)); [|done]. destruct (decide (b0 = b1)); [done|].
  by destruct (decide (b1 = b1)).
Qed.

(** C4. When [branch_only] is false and the modified-path map has entries
    for exactly two branches [B] and [parent], [get_conflicts] returns the
    intersection [modified_paths[B] ∩ modified_paths[parent]], whichever of
    the two comes first in the map; computed on the map with the two
    entries exchanged, the result is the same set. *)
Theorem get_conflicts_intersection (self : Diff.t)
    (paths : list (string * gset path)) (self' : Diff.t) (B parent : string) :
  Diff.branch_only self = false →
  get_modified_paths now store self = Ok (paths, self') →
  PyDict.keys paths = [B; parent] ∨ PyDict.keys paths = [parent; B] →
  get_conflicts now store self
    = Ok (paths_at paths B ∩ paths_at paths parent, self') ∧
  conflicts_of_paths paths = Ok (paths_at paths B ∩ paths_at paths parent) ∧
  conflicts_of_paths (reverse paths) = conflicts_of_paths paths.
Proof.
  intros Hbo Hpaths Hkeys.
  destruct (get_modified_paths_spec _ _ _ _ _ Hpaths)
    as (nodes & self1 & rels & _ & _ & Hnd & _).
  assert (∃ b0 s0 b1 s1, paths = [(b0, s0); (b1, s1)] ∧ b0 ≠ b1 ∧
            paths_at paths B ∩ paths_at paths parent = s0 ∩ s1)
    as (b0 & s0 & b1 & s1 & -> & Hne & Hcap).
  { destruct paths as [|[b0 s0] [|[b1 s1] [|? ?]]];
      try (destruct Hkeys as [Hk|Hk]; discriminate Hk).
    exists b0, s0, b1, s1. split; [done|].
    assert (b0 ≠ b1) as Hne.
    { cbn in Hnd. apply NoDup_cons in Hnd as [Hnin _].
      intros ->. apply Hnin. left. }
    split; [done|]. unfold paths_at. cbn.
    destruct Hkeys as [[= -> ->] | [= -> ->]].
    - destruct (decide (B = B)); [|done]. destruct (decide (B = parent)); [done|].
      by destruct (decide (parent = parent)).
    - destruct (decide (parent = parent)); [|done].
      destruct (decide (parent = B)); [done|].
      destruct (decide (B = B)); [|done]. cbn. apply (comm_L (∩)). }
  rewrite Hcap. split; [|split].
  - unfold get_conflicts. rewrite Hbo, Hpaths. cbn [mbind res_bind].
    by rewrite conflicts_of_two.
  - by apply conflicts_of_two.
  - cbn. rewrite !conflicts_of_two by done. f_equal. apply (comm_L (∩)).
Qed.

(** C5, amended. [get_modified_paths] returns, per branch, exactly the
    tuples [("node", node_uuid, attr_name, prop_kind)] of the properties of
    the attributes of the nodes [get_nodes] lists for that branch, and the
    tuples [("relationships", rel_name, rel_uuid, prop_kind)] of the
    properties of the relationships [get_relationships] lists for it: the
    first component of a relationship path is the string
    ["relationships"]. With [branch_only] only the branch of the diff is
    listed. *)
Theorem get_modified_paths_tuples (self : Diff.t)
    (paths : list (string * gset path)) (self' : Diff.t) :
  get_modified_paths now store self = Ok (paths, self') →
  ∃ nodes self1 rels,
    get_nodes now store self = Ok (nodes, self1) ∧
    get_relationships now store self1 = Ok (rels, self') ∧
    ∀ b p, p ∈ paths_at paths b ↔
      (Diff.branch_only self = true → b = Branch.name (Diff.branch self)) ∧
      ((∃ data node_id node attr_name attr prop_type prop,
          (b, data) ∈ nodes ∧ (node_id, node) ∈ data ∧
          (attr_name, attr) ∈ NodeDiffElement.attributes node ∧
          (prop_type, prop) ∈ NodeAttributeDiffElement.properties attr ∧
          p = ("node", node_id, attr_name, prop_type)) ∨
       (∃ data rel_name rels_of_name rel_id rel prop_type prop,
          (b, data) ∈ rels ∧ (rel_name, rels_of_name) ∈ data ∧
          (rel_id, rel) ∈ rels_of_name ∧
          (prop_type, prop) ∈ RelationshipDiffElement.properties rel ∧
          p = ("relationships", rel_name, rel_id, prop_type))).
Proof.
  intros Hpaths.
  destruct (get_modified_paths_spec _ _ _ _ _ Hpaths)
    as (nodes & self1 & rels & Hn & Hr & _ & _ & Hspec).
  exists nodes, self1, rels. split; [done|]. split; [done|].
  intros b p. rewrite Hspec. unfold node_path_of, rel_path_of.
  assert ((Diff.branch_only self
           && negb (bool_decide (b = Branch.name (Diff.branch self)))) = false ↔
          (Diff.branch_only self = true → b = Branch.name (Diff.branch self))) as ->.
  { destruct (Diff.branch_only self); simpl.
    - rewrite negb_false_iff, bool_decide_eq_true. naive_solver.
    - naive_solver. }
  naive_solver.
Qed.

(** C6. With [branch_only] the map returned by [get_modified_paths] has no
    entry for a branch other than the branch of the diff, and
    [get_conflicts] returns the empty set. *)
Theorem branch_only_paths (self : Diff.t) :
  Diff.branch_only self = true →
  (∀ paths self', get_modified_paths now store self = Ok (paths, self') →
     ∀ b, b ∈ PyDict.keys paths → b = Branch.name (Diff.branch self)) ∧
  get_conflicts now store self = Ok (∅, self).
Proof.
  intros Hbo. split.
  - intros paths self' Hpaths b Hb.
    destruct (get_modified_paths_spec _ _ _ _ _ Hpaths)
      as (nodes & self1 & rels & _ & _ & _ & Hkeys & Hspec).
    destruct (proj1 (Hkeys b) Hb) as [p Hp].
    destruct (proj1 (Hspec b p) Hp) as [Hskip _].
    rewrite Hbo in Hskip. simpl in Hskip.
    apply negb_false_iff in Hskip. by apply bool_decide_eq_true in Hskip.
  - unfold get_conflicts. by rewrite Hbo.
Qed.
End ConflictProps.

(** C4, applied to the diff of [branch2] when both branches changed
    [C.name]. *)
Lemma get_conflicts_intersection_witness :
  match get_modified_paths 100 conflict_store sample_diff with
  | Ok (paths, self') =>
      get_conflicts 100 conflict_store sample_diff
        = Ok (paths_at paths "branch2" ∩ paths_at paths "main", self')
  | Raise _ => False
  end.
Proof.
  destruct (get_modified_paths 100 conflict_store sample_diff)
    as [[paths self']|e] eqn:Hpaths; [|discriminate Hpaths].
  apply (get_conflicts_intersection 100 conflict_store sample_diff paths self'
           "branch2" "main"); [reflexivity | exact Hpaths |].
  left. injection Hpaths as <- _. reflexivity.
Defined.

(** C5, applied to the diff of [branch2] when a flag of a relationship
    changed. *)
Lemma get_modified_paths_tuples_witness :
  match get_modified_paths 100 rel_store sample_diff with
  | Ok (paths, _) =>
      ("relationships", "car__person", Vertex.uuid vertex_rel, "IS_VISIBLE")
        ∈ paths_at paths "branch2"
  | Raise _ => False
  end.
Proof.
  destruct (get_modified_paths 100 rel_store sample_diff)
    as [[paths self']|e] eqn:Hpaths; [|discriminate Hpaths].
  destruct (get_modified_paths_tuples 100 rel_store sample_diff paths self' Hpaths)
    as (nodes & self1 & rels & Hn & Hr & Hspec).
  apply Hspec. split; [discriminate|]. right.
  injection Hn as <- <-. injection Hr as <- _.
  eexists _, _, _, _, _, _, _.
  split; [left|]. split; [left|]. split; [left|]. split; [left|]. reflexivity.
Defined.

(** C5 as stated fails: for a changed flag of a relationship the path
    starts with ["relationships"], and the tuple starting with ["rel"] is
    not in the map. *)
Lemma get_modified_paths_rel_literal_counterexample :
  ∃ paths self' rels self1,
    get_modified_paths 100 rel_store sample_diff = Ok (paths, self') ∧
    get_relationships 100 rel_store sample_diff = Ok (rels, self1) ∧
    (∃ rel prop,
        rels = [("branch2", [("car__person", [(Vertex.uuid vertex_rel, rel)])])] ∧
        RelationshipDiffElement.properties rel = [("IS_VISIBLE", prop)]) ∧
    (("rel", "car__person", Vertex.uuid vertex_rel, "IS_VISIBLE")
       ∉ paths_at paths "branch2") ∧
    paths_at paths "branch2" =
      {[ ("relationships", "car__person", Vertex.uuid vertex_rel, "IS_VISIBLE") ]}.
Proof.
  eexists _, _, _, _. split; [reflexivity|]. split; [reflexivity|].
  split; [eexists _, _; split; reflexivity|].
  split; apply (bool_decide_unpack _); vm_compute; exact I.
Qed.

(** C6, applied to the diff of [branch2] restricted to the branch, when
    both branches changed [C.name]. *)
Lemma branch_only_paths_witness :
  match get_modified_paths 100 conflict_store sample_diff_branch_only with
  | Ok (paths, _) =>
      Forall (λ b, b = "branch2") (PyDict.keys paths) ∧ PyDict.keys paths ≠ []
  | Raise _ => False
  end ∧
  get_conflicts 100 conflict_store sample_diff_branch_only
    = Ok (∅, sample_diff_branch_only).
Proof.
  destruct (branch_only_paths 100 conflict_store sample_diff_branch_only eq_refl)
    as [Hkeys Hconf].
  split; [|exact Hconf].
  destruct (get_modified_paths 100 conflict_store sample_diff_branch_only)
    as [[paths self']|e] eqn:Hpaths; [|discriminate Hpaths].
  split.
  - apply Forall_forall. intros b Hb. exact (Hkeys paths self' eq_refl b Hb).
  - injection Hpaths as <- _. discriminate.
Defined.

(** ** De-duplication of relationship rows *)

Lemma head_insert_desc x l :
  head (insert_desc x l) =
  Some (match head l with
        | Some y => if bool_decide (x.2 < y.2)%Z then y else x
        | None => x
        end).
Proof. destruct l as [|y l]; simpl; [done|]. by case_bool_decide. Qed.

(** The first entry of the sorted list has the highest score. *)
Lemma head_sorted_desc values :
  values ≠ [] →
  ∃ best, head (sorted_desc values) = Some best ∧ best ∈ values ∧
          ∀ v, v ∈ values → (v.2 ≤ best.2)%Z.
Proof.
  induction values as [|x values IH]; [done|]. intros _.
  unfold sorted_desc. cbn [foldr]. fold (sorted_desc values).
  rewrite head_insert_desc.
  destruct values as [|y values].
  { exists x. split; [done|]. split; [left|].
    intros v ->%list_elem_of_singleton. lia. }
  destruct IH as (best & -> & Hin & Hmax); [done|].
  case_bool_decide as Hlt.
  - exists best. split; [done|]. split; [by right|].
    intros v [->|Hv]%elem_of_cons; [lia | by apply Hmax].
  - exists x. split; [done|]. split; [left|].
    intros v [->|Hv]%elem_of_cons; [lia|]. specialize (Hmax v Hv). lia.
Qed.

Lemma get_elem_NoDup {V} (d : list (string * V)) k v :
  NoDup (PyDict.keys d) → (k, v) ∈ d → PyDict.get d k = Some v.
Proof.
  unfold PyDict.keys. induction d as [|[k' v'] d IH]; intros Hnd Hin.
  - by apply elem_of_nil in Hin.
  - rewrite fmap_cons in Hnd. apply NoDup_cons in Hnd as [Hnin Hnd]. cbn.
    apply elem_of_cons in Hin as [[= -> ->]|Hin].
    + by rewrite decide_True.
    + rewrite decide_False; [by apply IH|].
      intros ->. apply Hnin. apply list_elem_of_fmap. by exists (k, v).
Qed.

Lemma attrs_info_append_lookup attrs_info k info k' :
  default [] (PyDict.get (attrs_info_append attrs_info k info) k') =
  if decide (k = k') then (default [] (PyDict.get attrs_info k') ++ [info])%list
  else default [] (PyDict.get attrs_info k').
Proof.
  unfold attrs_info_append. destruct (decide (k = k')) as [->|Hne].
  - by rewrite get_set_eq.
  - by rewrite get_set_ne.
Qed.

Section GetResultsProps.
Context {Row : Type}.
Variable element_ids : Row → gset (Z + Z).
Variable attr_key : Row → string.
Variable branch_score : Row → Z.

Local Abbreviation step := (get_results_step element_ids attr_key branch_score).
Local Abbreviation first_in := (first_of_ids element_ids).

Lemma first_of_ids_snoc (rs : list Row) x i r :
  first_in (rs ++ [x]) i r ↔
  first_in rs i r ∨
  (i = length rs ∧ r = x ∧
   ∀ j r', rs !! j = Some r' → element_ids r' ≠ element_ids x).
Proof.
  unfold first_of_ids. split.
  - intros [Hi Hfirst]. destruct (decide (i < length rs)%nat) as [Hlt|Hge].
    + left. rewrite lookup_app_l in Hi by done. split; [done|].
      intros j r' Hj Hr'. apply (Hfirst j r' Hj).
      rewrite lookup_app_l; [done|lia].
    + right. assert (i = length rs) as ->.
      { apply lookup_lt_Some in Hi. rewrite length_app in Hi. simpl in Hi. lia. }
      rewrite list_lookup_middle in Hi by done. injection Hi as <-.
      split; [done|]. split; [done|].
      intros j r' Hr'. apply (Hfirst j r'); [by eapply lookup_lt_Some|].
      rewrite lookup_app_l; [done | by eapply lookup_lt_Some].
  - intros [[Hi Hfirst] | (-> & -> & Hfresh)].
    + assert (i < length rs)%nat as Hlt by (by eapply lookup_lt_Some).
      split; [by rewrite lookup_app_l|].
      intros j r' Hj Hr'. apply (Hfirst j r' Hj).
      rewrite lookup_app_l in Hr'; [done|lia].
    + split; [by rewrite list_lookup_middle|].
      intros j r' Hj Hr'. rewrite lookup_app_l in Hr' by done. by eapply Hfresh.
Qed.

Lemma groups_ok_foldl (rs : list Row) :
  groups_ok element_ids attr_key branch_score rs (foldl step ([], []) (enumerate rs)).
Proof.
  induction rs as [|x rs IH] using rev_ind.
  { split; [constructor|]. split; [by intros k ?%elem_of_nil|]. split.
    - intros k i s. cbn. split; [by intros ?%elem_of_nil|].
      by intros (r & [Hr _] & _).
    - intros ids. cbn. split; [by intros ?%elem_of_nil|]. by intros (j & r & Hr & _). }
  unfold enumerate. rewrite imap_app, foldl_app. fold (enumerate rs).
  destruct (foldl step ([], []) (enumerate rs)) as [info processed].
  destruct IH as (Hnd & Hne & Hmem & Hproc). cbn [fst snd] in *.
  cbn [imap foldl get_results_step]. rewrite Nat.add_0_r.
  case_bool_decide as Hseen.
  - (* the ids of [x] were seen before *)
    apply Hproc in Hseen as (j0 & r0 & Hj0 & Hids0).
    unfold groups_ok. cbn [fst snd]. split; [done|]. split; [done|]. split.
    + intros k i s. rewrite Hmem. setoid_rewrite first_of_ids_snoc.
      split; [naive_solver|].
      intros (r & [Hfirst | (_ & -> & Hfresh)] & Hk & Hs); [eauto|].
      by destruct (Hfresh j0 r0 Hj0).
    + intros ids. rewrite Hproc. split.
      * intros (j & r & Hj & Hr). exists j, r. split; [|done].
        rewrite lookup_app_l; [done | by eapply lookup_lt_Some].
      * intros (j & r & Hj & Hr).
        destruct (decide (j < length rs)%nat) as [Hlt|Hge].
        -- rewrite lookup_app_l in Hj by done. eauto.
        -- assert (j = length rs) as ->.
           { apply lookup_lt_Some in Hj. rewrite length_app in Hj. simpl in Hj. lia. }
           rewrite list_lookup_middle in Hj by done. injection Hj as <-.
           exists j0, r0. split; [done|congruence].
  - (* [x] is the first row with its ids *)
    assert (∀ j r', rs !! j = Some r' → element_ids r' ≠ element_ids x) as Hfresh.
    { intros j r' Hj Heq. apply Hseen, Hproc. eauto. }
    unfold groups_ok. cbn [fst snd].
    split; [by apply NoDup_keys_set|]. split; [|split].
    + intros k Hk. rewrite attrs_info_append_lookup.
      destruct (decide (attr_key x = k)) as [<-|Hnek].
      * by destruct (default [] (PyDict.get info (attr_key x))).
      * apply Hne. unfold attrs_info_append in Hk.
        apply elem_of_keys_set in Hk as [->|Hk]; [done|done].
    + intros k i s. rewrite attrs_info_append_lookup.
      setoid_rewrite first_of_ids_snoc.
      destruct (decide (attr_key x = k)) as [<-|Hnek].
      * rewrite elem_of_app, list_elem_of_singleton, Hmem. split.
        -- intros [(r & Hr & Hk & Hs) | [= -> ->]]; [eauto 6|].
           exists x. split; [right|]; done.
        -- intros (r & [Hr | (-> & -> & _)] & Hk & Hs); [left; eauto | by right; subst].
      * rewrite Hmem. split; [naive_solver|].
        intros (r & [Hr | (-> & -> & _)] & Hk & Hs); [eauto | done].
    + intros ids. rewrite elem_of_app, list_elem_of_singleton, Hproc. split.
      * intros [(j & r & Hj & Hr) | ->].
        -- exists j, r. split; [|done].
           rewrite lookup_app_l; [done | by eapply lookup_lt_Some].
        -- exists (length rs), x. split; [|done]. by rewrite list_lookup_middle.
      * intros (j & r & Hj & Hr).
        destruct (decide (j < length rs)%nat) as [Hlt|Hge].
        -- rewrite lookup_app_l in Hj by done. left. eauto.
        -- assert (j = length rs) as ->.
           { apply lookup_lt_Some in Hj. rewrite length_app in Hj. simpl in Hj. lia. }
           rewrite list_lookup_middle in Hj by done. injection Hj as <-. by right.
Qed.

Lemma NoDup_omap_keys {A B} (f : string * A → option B) (g : B → string)
    (l : list (string * A)) :
  (∀ k a b, (k, a) ∈ l → f (k, a) = Some b → g b = k) →
  NoDup (PyDict.keys l) → NoDup (g <$> omap f l).
Proof.
  unfold PyDict.keys. induction l as [|[k a] l IH]; intros Hg Hnd; [constructor|].
  rewrite fmap_cons in Hnd. apply NoDup_cons in Hnd as [Hnin Hnd]. cbn [omap list_omap].
  assert (NoDup (g <$> omap f l)) as IH'.
  { apply IH; [|done]. intros k' a' b Hin. apply Hg. by right. }
  destruct (f (k, a)) as [b|] eqn:Hb; [|done].
  rewrite fmap_cons. apply NoDup_cons. split; [|done].
  rewrite (Hg k a b); [|left|done].
  intros (b' & Hkb & Hb')%list_elem_of_fmap.
  apply list_elem_of_omap in Hb' as ([k' a'] & Hin & Hf).
  rewrite (Hg k' a' b') in Hkb; [|by right|done]. subst k'.
  apply Hnin. apply list_elem_of_fmap. by exists (k, a').
Qed.

(** The rows [get_results] yields: first-of-their-ids rows, one per key, each
    with the highest score among the first-of-their-ids rows of its key. *)
Lemma get_results_spec (rs : list Row) :
  let out := get_results element_ids attr_key branch_score rs in
  (∀ r, r ∈ out → ∃ i, first_in rs i r) ∧
  NoDup (attr_key <$> out) ∧
  (∀ i r, first_in rs i r →
     ∃ r', r' ∈ out ∧ attr_key r' = attr_key r ∧
           (branch_score r ≤ branch_score r')%Z).
Proof.
  intros out.
  pose proof (groups_ok_foldl rs) as Hok.
  assert (out =
          omap (λ '(_, values),
                  attr_info ← head (sorted_desc values); rs !! attr_info.1)
               (foldl step ([], []) (enumerate rs)).1) as Hout.
  { subst out. unfold get_results. case_bool_decide as Hnil.
    - by subst rs.
    - by destruct (foldl step ([], []) (enumerate rs)). }
  clearbody out. subst out.
  destruct (foldl step ([], []) (enumerate rs)) as [info processed].
  destruct Hok as (Hnd & Hne & Hmem & _). cbn [fst snd] in *.
  set (f := (λ '(_, values),
               attr_info ← head (sorted_desc values); rs !! attr_info.1)
            : string * list (nat * Z) → option Row).
  (* what an entry of [attrs_info] yields *)
  assert (∀ k values, (k, values) ∈ info →
            ∃ i r, f (k, values) = Some r ∧ first_in rs i r ∧ attr_key r = k ∧
                   ∀ v, v ∈ values → (v.2 ≤ branch_score r)%Z) as Hentry.
  { intros k values Hin.
    pose proof (get_elem_NoDup _ _ _ Hnd Hin) as Hget.
    assert (values ≠ []) as Hvne.
    { specialize (Hne k). rewrite Hget in Hne. apply Hne.
      apply list_elem_of_fmap. by exists (k, values). }
    destruct (head_sorted_desc values Hvne) as ([i s] & Hhead & Hbest & Hmax).
    specialize (Hmem k i s). rewrite Hget in Hmem.
    destruct (proj1 Hmem Hbest) as (r & Hfirst & Hk & Hs).
    exists i, r. split; [|split; [done|split; [done|]]].
    - cbn. rewrite Hhead. cbn. apply Hfirst.
    - intros v Hv. specialize (Hmax v Hv). cbn in Hmax. lia. }
  split; [|split].
  - intros r Hr. apply list_elem_of_omap in Hr as ([k values] & Hin & Hf).
    destruct (Hentry k values Hin) as (i & r' & Hf' & Hfirst & _).
    exists i. congruence.
  - apply NoDup_omap_keys; [|done]. intros k values r Hin Hf.
    destruct (Hentry k values Hin) as (i & r' & Hf' & _ & Hk & _). congruence.
  - intros i r Hfirst.
    assert ((i, branch_score r) ∈ default [] (PyDict.get info (attr_key r))) as Hi.
    { apply Hmem. eauto. }
    destruct (PyDict.get info (attr_key r)) as [values|] eqn:Hget;
      [|by apply elem_of_nil in Hi].
    apply get_Some_elem in Hget.
    destruct (Hentry _ _ Hget) as (i' & r' & Hf & _ & Hk & Hmax).
    exists r'. split; [|split; [done|]].
    + apply list_elem_of_omap. by exists (attr_key r, values).
    + apply (Hmax _ Hi).
Qed.
End GetResultsProps.

Lemma sorted_pair_comm (a b : string) : sorted_pair a b = sorted_pair b a.
Proof.
  unfold sorted_pair, String.ltb. rewrite (String.compare_antisym b a).
  destruct (String.compare a b) eqn:Hc; cbn; try done.
  apply String.compare_eq_iff in Hc. by subst.
Qed.

Lemma sorted_pair_inv (a b a' b' : string) :
  sorted_pair a b = sorted_pair a' b' →
  (a = a' ∧ b = b') ∨ (a = b' ∧ b = a').
Proof.
  unfold sorted_pair.
  destruct (String.ltb b a), (String.ltb b' a'); intros [= -> ->]; auto.
Qed.

(** The text key depends on the branch, the pair of endpoints and the name
    only. *)
Lemma RelRow_attr_key_of_logical_key (r r' : RelRow.t) :
  RelRow_logical_key r = RelRow_logical_key r' →
  RelRow_attr_key r = RelRow_attr_key r'.
Proof.
  unfold RelRow_logical_key, RelRow_attr_key. intros [= Hb Hp Hn].
  rewrite Hb, Hn.
  apply sorted_pair_inv in Hp as [[-> ->] | [-> ->]]; [done|].
  by rewrite sorted_pair_comm.
Qed.




(** ** Validation and merge *)

Lemma repository_checks_fold (checks : list (bool * list string)) passed messages :
  let out :=
    foldl (λ '(passed, messages) '(result, errors),
             if negb result then (false, (messages ++ errors)%list)
             else (passed, messages))
          (passed, messages) checks in
  (out.1 = true ↔ passed = true ∧ ∀ result errors, (result, errors) ∈ checks → result = true) ∧
  (∀ m, m ∈ messages → m ∈ out.2).
Proof.
  revert passed messages.
  induction checks as [|[result errors] checks IH]; intros passed messages; cbn.
  - split; [|done]. split; [intros ->; split; [done|] | by intros [-> _]].
    by intros ?? ?%elem_of_nil.
  - destruct result; cbn.
    + destruct (IH passed messages) as [IHp IHm]. split; [|done].
      rewrite IHp. split.
      * intros [-> Hall]. split; [done|].
        intros r e [[= -> ->]|Hin]%elem_of_cons; [done|by eapply Hall].
      * intros [-> Hall]. split; [done|]. intros r e Hin. eapply Hall. by right.
    + destruct (IH false (messages ++ errors)%list) as [IHp IHm]. split.
      * rewrite IHp. split; [by intros [? _]|].
        intros [_ Hall]. specialize (Hall false errors). discriminate Hall. left.
      * intros m Hm. apply IHm. apply elem_of_app. by left.
Qed.

Section MergeProps.
Variable default_branch : string.
Variable now : Z.
Variable get_branch : string → Branch.t.
Variable store : Store.t.

Local Abbreviation validate' := (validate now get_branch store).
Local Abbreviation merge' := (merge default_branch now get_branch store).

(** A branch with a conflict or a failing repository check does not
    validate, and the messages name every conflicting path. *)
Lemma validate_fails (self : Branch.t) d conflicts d' :
  Branch_diff now get_branch self None None = Ok d →
  get_conflicts now store d = Ok (conflicts, d') →
  conflicts ≠ ∅ ∨ (∃ errors, (false, errors) ∈ Store.repository_checks store self) →
  ∃ messages, validate' self = Ok (false, messages) ∧
    ∀ c, c ∈ conflicts → "Conflict detected at " +:+ path_text c ∈ messages.
Proof.
  intros Hd Hc Hbad. unfold validate. rewrite Hd. cbn [mbind res_bind].
  rewrite Hc. cbn [mbind res_bind].
  set (init := if bool_decide (conflicts ≠ ∅)
               then (false, (λ conflict, "Conflict detected at " +:+ path_text conflict)
                              <$> elements conflicts)
               else (true, [])).
  destruct init as [passed messages] eqn:Hinit.
  destruct (repository_checks_fold (Store.repository_checks store self) passed messages)
    as [Hp Hm].
  destruct (foldl _ (passed, messages) _) as [passed' messages'] eqn:Hfold.
  cbn [fst snd] in *.
  assert (passed' = false) as ->.
  { destruct passed'; [|done]. destruct Hp as [Hp _].
    destruct (Hp eq_refl) as [-> Hall].
    destruct Hbad as [Hne | [errors Hin]].
    - subst init. by rewrite bool_decide_eq_true_2 in Hinit.
    - by specialize (Hall _ _ Hin). }
  exists messages'. split; [done|].
  intros c Hin. apply Hm. subst init.
  rewrite bool_decide_eq_true_2 in Hinit by set_solver.
  injection Hinit as _ <-. apply list_elem_of_fmap. exists c. split; [done|].
  by apply elem_of_elements.
Qed.

(** C3, amended. [merge] fails, leaving the log of writes as it found it,
    when [validate] raises, when the branch does not validate, and when the
    branch is the default branch. A branch with a conflict or a failing
    repository check does not validate; the error [merge] then raises is the
    plain exception "Unable to merge the branch '<name>', validation
    failed", whatever the conflicts are: the conflicting paths are in the
    messages of [validate], which [merge] drops. *)
Theorem merge_fails_without_writes (self : Branch.t) (at_ : option Z) (log : list write) :
  (∀ e, validate' self = Raise e → merge' self at_ log = (Raise e, log)) ∧
  (∀ messages, validate' self = Ok (false, messages) →
     merge' self at_ log =
       (Raise (Exception ("Unable to merge the branch '" +:+ Branch.name self
                          +:+ "', validation failed")), log)) ∧
  (Branch.name self = default_branch → ∃ e, merge' self at_ log = (Raise e, log)) ∧
  (∀ d conflicts d',
     Branch_diff now get_branch self None None = Ok d →
     get_conflicts now store d = Ok (conflicts, d') →
     conflicts ≠ ∅ ∨ (∃ errors, (false, errors) ∈ Store.repository_checks store self) →
     ∃ messages, validate' self = Ok (false, messages) ∧
       ∀ c, c ∈ conflicts → "Conflict detected at " +:+ path_text c ∈ messages).
Proof.
  split; [|split; [|split]].
  - intros e He. unfold merge, lift. cbn [mbind M_bind]. by rewrite He.
  - intros messages Hv. unfold merge, lift. cbn [mbind M_bind]. by rewrite Hv.
  - intros Hname. unfold merge, lift. cbn [mbind M_bind].
    destruct (validate' self) as [[[] messages]|e]; cbn [negb]; [|eauto..].
    rewrite decide_True by done. eauto.
  - apply validate_fails.
Qed.
End MergeProps.

(** C3, applied to [branch2] when both branches changed [C.name]. *)
Lemma merge_fails_without_writes_witness :
  merge "main" 100 (λ _, main_branch) conflict_store branch2 None [] =
    (Raise (Exception "Unable to merge the branch 'branch2', validation failed"), []).
Proof.
  destruct (merge_fails_without_writes "main" 100 (λ _, main_branch) conflict_store
              branch2 None []) as (_ & Hfail & _).
  apply (Hfail ["Conflict detected at node/cccccccc-0000-0000-0000-000000000001/name/HAS_VALUE"]).
  vm_compute. reflexivity.
Defined.

(** C3 as stated fails: with a conflict on [C.name], [validate] reports the
    path, but [merge] raises a plain exception that names the branch only,
    the very exception it raises when a repository check fails and there is
    no conflict at all. *)
Lemma merge_error_drops_paths_counterexample :
  validate 100 (λ _, main_branch) conflict_store branch2 =
    Ok (false, ["Conflict detected at node/cccccccc-0000-0000-0000-000000000001/name/HAS_VALUE"]) ∧
  merge "main" 100 (λ _, main_branch) conflict_store branch2 None [] =
    (Raise (Exception "Unable to merge the branch 'branch2', validation failed"), []) ∧
  validate 100 (λ _, main_branch) failing_check_store branch2 =
    Ok (false, ["check `validate_names` failed"]) ∧
  merge "main" 100 (λ _, main_branch) failing_check_store branch2 None [] =
    merge "main" 100 (λ _, main_branch) conflict_store branch2 None [].
Proof. repeat split; vm_compute; reflexivity. Qed.

(** * Further properties of the code *)

(** ** The branch-query set and the filters *)

Section FilterExtras.
Variable default_branch : string.
Variable now : Z.

Local Abbreviation branches_to_query := (get_branches_and_times_to_query default_branch now).

(** X1. [get_branches_and_times_to_query] never looks past the time of the
    query: every time it returns is at or before [at]; the default branch is
    always part of the answer, and the branch itself is read at [at]. *)
Theorem branches_to_query_times_bounded (B : Branch.t) (at_ : option Z) :
  let t := Timestamp now at_ in
  Forall (λ entry, (entry.2 ≤ t)%Z) (branches_to_query B at_) ∧
  is_Some (PyDict.get (branches_to_query B at_) default_branch) ∧
  PyDict.get (branches_to_query B at_) (Branch.name B) = Some t.
Proof.
  intros t.
  destruct (branches_to_query_cases default_branch now B at_) as [[Hn ->] | [Hn ->]];
    fold t.
  - split; [|split].
    + repeat constructor. simpl. lia.
    + cbn. by rewrite decide_True.
    + rewrite Hn. cbn. by rewrite decide_True.
  - split; [|split].
    + repeat constructor; simpl; [|lia].
      destruct (Branch.ephemeral_rebase B); simpl; [lia|].
      case_bool_decide; lia.
    + cbn. by rewrite decide_True.
    + cbn. rewrite decide_False by done. by rewrite decide_True.
Qed.

Lemma filter_params_dom (bt : list (string * Z)) (k : string) :
  is_Some (filter_params bt !! k) ↔
  ∃ i, (i < length bt)%nat ∧ (k = "branch" +:+ pretty i ∨ k = "time" +:+ pretty i).
Proof.
  induction bt as [|[b t] bt IH] using rev_ind.
  { unfold filter_params. cbn. rewrite lookup_empty. split.
    - by intros [? ?].
    - intros (i & Hi & _). simpl in Hi. lia. }
  rewrite filter_params_snoc, length_app. cbn [length].
  rewrite !lookup_insert_is_Some, IH. split.
  - intros [<- | [_ [<- | [_ (i & Hi & Hk)]]]].
    + exists (length bt). split; [lia | by right].
    + exists (length bt). split; [lia | by left].
    + exists i. split; [lia | done].
  - intros (i & Hi & Hk). destruct (decide (i = length bt)) as [->|Hne].
    + destruct Hk as [-> | ->]; [right; split; [done|by left] | by left].
    + destruct (decide ("time" +:+ pretty (length bt) = k)) as [|Hk1]; [by left|].
      right. split; [done|].
      destruct (decide ("branch" +:+ pretty (length bt) = k)) as [|Hk2]; [by left|].
      right. split; [done|]. exists i. split; [lia | done].
Qed.

Lemma elem_of_cond_params_or_join c cs p :
  p ∈ cond_params (or_join c cs) ↔ ∃ c', c' ∈ c :: cs ∧ p ∈ cond_params c'.
Proof.
  revert c. induction cs as [|c' cs IH]; intros c; cbn [or_join cond_params].
  - split; [intros H; exists c; split; [left|done]|].
    intros (c' & Hin & H). by apply list_elem_of_singleton in Hin as ->.
  - rewrite elem_of_app, IH. split.
    + intros [H | (c'' & Hin & H)]; [exists c; split; [left|done]|].
      exists c''. split; [by right|done].
    + intros (c'' & Hin & H). apply elem_of_cons in Hin as [->|Hin]; [by left|].
      right. eauto.
Qed.

(** X2. The path filter refers to exactly the parameters it binds: every
    [$branch{idx}] and [$time{idx}] of the text is a key of the parameter
    dictionary returned with it, and the dictionary has no other key. *)
Theorem path_filter_parameters_bound (B : Branch.t) (at_ : option Z) :
  ∃ c, get_query_filter_path_cond default_branch now B at_ = Some c ∧
       render c = (get_query_filter_path default_branch now B at_).1 ∧
       ∀ p, p ∈ cond_params c ↔
            is_Some ((get_query_filter_path default_branch now B at_).2 !! p).
Proof.
  unfold get_query_filter_path_cond, get_query_filter_path.
  rewrite branches_to_query_idem.
  destruct (rel_clauses_nonempty default_branch now "r" B at_) as (c0 & cs & Hcs).
  exists (CParen (or_join c0 cs)). rewrite Hcs. split; [done|]. split.
  - cbn [render fst]. by rewrite render_or_join, rel_clauses_text_render, Hcs.
  - intros p. cbn [snd cond_params].
    rewrite filter_params_dom, elem_of_cond_params_or_join, <- Hcs. split.
    + intros (c' & Hin & Hp).
      apply elem_of_rel_clauses in Hin as (i & br & t & Hi & Hc').
      exists i. split; [by eapply lookup_lt_Some|].
      destruct Hc' as [-> | ->]; cbn in Hp; set_solver.
    + intros (i & Hi & Hp).
      apply lookup_lt_is_Some in Hi as [[br t] Hi].
      exists (rel_clause_open "r" (pretty i)). split.
      * apply elem_of_rel_clauses. eauto 6.
      * destruct Hp as [-> | ->]; cbn; set_solver.
Qed.

(** X3. [get_query_filter_relationships] returns one filter per label with
    [include_outside_parentheses], and two without it: the bare disjunction
    followed by the same disjunction in parentheses. Its parameters are those
    of [get_query_filter_path], and for the single label [r] with
    [include_outside_parentheses] its filter is the path filter. *)
Theorem relationships_filter_shape (B : Branch.t) (rel_labels : list string)
    (at_ : option Z) (iop : bool) :
  let result := get_query_filter_relationships default_branch now B rel_labels at_ iop in
  length result.1 = ((if iop then 1 else 2) * length rel_labels)%nat ∧
  result.2 = (get_query_filter_path default_branch now B at_).2 ∧
  (iop = false →
   ∃ bare : string → string,
     result.1 = (rel_labels ≫= λ rel, [bare rel; "(" +:+ bare rel +:+ ")"])) ∧
  get_query_filter_relationships default_branch now B ["r"] at_ true =
    ([(get_query_filter_path default_branch now B at_).1],
     (get_query_filter_path default_branch now B at_).2).
Proof.
  intros result. subst result.
  unfold get_query_filter_relationships, get_query_filter_path. cbn [fst snd].
  split; [|split; [done|split; [|done]]].
  - induction rel_labels as [|rel rels IH]; [by destruct iop|].
    rewrite fmap_cons.
    change (mjoin (?x :: ?l)) with (x ++ mjoin l)%list.
    rewrite length_app, IH. unfold relationship_filters_text.
    destruct iop; cbn; lia.
  - intros ->.
    exists (λ rel, String.concat (NL +:+ " OR ")
                     (rel_clauses_text rel
                        (get_branches_and_times_to_query default_branch now B
                           (Some (Timestamp now at_))))).
    induction rel_labels as [|rel rels IH]; [done|].
    rewrite fmap_cons.
    change (mjoin (?x :: ?l)) with (x ++ mjoin l)%list.
    by rewrite IH.
Qed.
End FilterExtras.

(** ** The loops of the node diff *)

(** X4. First loop of [_calculate_diff_nodes]. A row whose edge ended before
    [diff_to] leaves the results as they are. Otherwise an ACTIVE edge
    records the node as ADDED and a DELETED edge as REMOVED, under the name
    of the branch vertex, with the start of the edge as [changed_at] and no
    attribute yet; an edge with any other status makes the loop raise. *)
Theorem node_row_classification (now diff_to : Z)
    (rs : list (string * BranchResults.t)) (result : NodeRow.t) :
  let r := NodeRow.r result in
  let branch_name := Vertex.name (NodeRow.b result) in
  let node_id := Vertex.uuid (NodeRow.n result) in
  (ended_before (Rel.to r) diff_to = true →
   diff_nodes_node_row now diff_to rs result = Ok rs) ∧
  (ended_before (Rel.to r) diff_to = false →
   ∀ action,
     (Rel.status r = RelationshipStatus.ACTIVE ∧ action = ADDED) ∨
     (Rel.status r = RelationshipStatus.DELETED ∧ action = REMOVED) →
     ∃ rs' elem,
       diff_nodes_node_row now diff_to rs result = Ok rs' ∧
       results_node rs' branch_name node_id = Some elem ∧
       NodeDiffElement.action elem = action ∧
       NodeDiffElement.branch elem = Some branch_name ∧
       NodeDiffElement.rel_id elem = Some (Rel.id r) ∧
       NodeDiffElement.changed_at elem = Some (Timestamp now (Rel.from r)) ∧
       NodeDiffElement.attributes elem = []) ∧
  (ended_before (Rel.to r) diff_to = false →
   Rel.status r ≠ RelationshipStatus.ACTIVE →
   Rel.status r ≠ RelationshipStatus.DELETED →
   ∃ msg, diff_nodes_node_row now diff_to rs result = Raise (TypeError msg)).
Proof.
  intros r branch_name node_id. unfold diff_nodes_node_row.
  fold r branch_name node_id. split; [|split].
  - by intros ->.
  - intros -> action Hcase. unfold node_action.
    destruct Hcase as [[-> ->] | [-> ->]]; cbn;
      eexists _, _; (split; [reflexivity|]);
      rewrite results_node_set_node_eq; by repeat split.
  - intros -> Ha Hd. unfold node_action.
    rewrite !decide_False by done. cbn. eauto.
Qed.

(** X4, applied to a node added on [branch2]. *)
Lemma node_row_classification_witness :
  ∃ rs' elem,
    diff_nodes_node_row 100 100 [] node_row_added = Ok rs' ∧
    results_node rs' "branch2" (Vertex.uuid vertex_A) = Some elem ∧
    NodeDiffElement.action elem = ADDED.
Proof.
  destruct (node_row_classification 100 100 [] node_row_added) as (_ & Hadd & _).
  destruct (Hadd eq_refl ADDED) as (rs' & elem & Hrow & Helem & Hact & _).
  - left. split; reflexivity.
  - exists rs', elem. repeat split; assumption.
Defined.

Lemma prop_action_Ok has_origin prop_from diff_from status :
  prop_action has_origin (Some prop_from) diff_from status =
  Ok (if negb has_origin && bool_decide (diff_from ≤ prop_from)%Z
         && bool_decide (status = RelationshipStatus.ACTIVE)
      then ADDED
      else if bool_decide (diff_from ≤ prop_from)%Z
              && bool_decide (status = RelationshipStatus.DELETED)
      then REMOVED
      else UPDATED, Some prop_from).
Proof.
  unfold prop_action. destruct has_origin; cbn; by repeat case_match.
Qed.

(** X5. Third loop of [_calculate_diff_nodes], for a row whose attribute is
    in the results. A property edge that ended before [diff_to] changes
    nothing. Otherwise the property is filed under its type with the action
    ADDED when the attribute is unknown on the origin branch and the edge
    starts at or after [diff_from] and is ACTIVE, REMOVED when it starts at
    or after [diff_from] and is DELETED, and UPDATED in every other case;
    [changed_at] is the start of the edge in all three cases, and the
    [origin_rel_id] of the attribute becomes the id of the edge [r1]. *)
Theorem attribute_property_classification
    (origin_attr_query :
       gset string → Branch.t → Z → string → string → option (string → Z))
    (origin_branch : Branch.t) (diff_from diff_to : Z) (q_nodes : gset string)
    (rs : list (string * BranchResults.t)) (result : AttrRow.t)
    (attr : NodeAttributeDiffElement.t) (prop_from : Z) :
  let branch_name := Rel.branch (AttrRow.r2 result) in
  let node_id := Vertex.uuid (AttrRow.n result) in
  let attr_name := Vertex.name (AttrRow.a result) in
  let r2 := AttrRow.r2 result in
  let origin_attr := origin_attr_query q_nodes origin_branch diff_to node_id attr_name in
  (ended_before (Rel.to r2) diff_to = true →
   diff_nodes_prop_row origin_attr_query origin_branch diff_from diff_to q_nodes
     rs result = Ok rs) ∧
  (ended_before (Rel.to r2) diff_to = false →
   Rel.from r2 = Some prop_from →
   results_attr rs branch_name node_id attr_name = Some attr →
   ∃ rs' attr' prop,
     diff_nodes_prop_row origin_attr_query origin_branch diff_from diff_to q_nodes
       rs result = Ok rs' ∧
     results_attr rs' branch_name node_id attr_name = Some attr' ∧
     NodeAttributeDiffElement.action attr' = NodeAttributeDiffElement.action attr ∧
     NodeAttributeDiffElement.origin_rel_id attr' = Some (Rel.id (AttrRow.r1 result)) ∧
     PyDict.get (NodeAttributeDiffElement.properties attr') (Rel.type r2) = Some prop ∧
     PropertyDiffElement.changed_at prop = Some prop_from ∧
     PropertyDiffElement.origin_rel_id prop
       = (λ ids : string → Z, ids (Rel.type r2)) <$> origin_attr ∧
     PropertyDiffElement.action prop =
       if bool_decide (origin_attr = None) && bool_decide (diff_from ≤ prop_from)%Z
          && bool_decide (Rel.status r2 = RelationshipStatus.ACTIVE)
       then ADDED
       else if bool_decide (diff_from ≤ prop_from)%Z
               && bool_decide (Rel.status r2 = RelationshipStatus.DELETED)
       then REMOVED
       else UPDATED).
Proof.
  intros branch_name node_id attr_name r2 origin_attr.
  unfold diff_nodes_prop_row. fold branch_name node_id attr_name r2 origin_attr.
  split; [by intros ->|].
  intros -> -> Hattr. rewrite prop_action_Ok. cbn [mbind res_bind].
  rewrite results_at_touch.
  unfold results_attr, results_node in Hattr.
  destruct (PyDict.get (BranchResults.nodes (results_at rs branch_name)) node_id)
    as [node|] eqn:Hnode; [|done].
  cbn in Hattr. unfold dict_item. rewrite Hnode. cbn [mbind res_bind].
  rewrite Hattr. cbn [mbind res_bind].
  eexists _, _, _. split; [reflexivity|].
  unfold results_attr. rewrite results_node_set_node_eq. cbn.
  rewrite get_set_eq. split; [reflexivity|]. cbn. rewrite get_set_eq.
  repeat (split; [reflexivity|]).
  assert (negb (bool_decide (is_Some origin_attr)) = bool_decide (origin_attr = None))
    as ->; [|done].
  destruct origin_attr as [ids|].
  - rewrite (bool_decide_eq_true_2 (is_Some (Some ids))) by done.
    by rewrite (bool_decide_eq_false_2 (Some ids = None)).
  - rewrite (bool_decide_eq_false_2 (is_Some None)) by (by intros [? ?]).
    by rewrite (bool_decide_eq_true_2 (None = None)).
Qed.

(** X6. An attribute whose HAS_ATTRIBUTE edge ended before [diff_to] is left
    out by the second loop of [_calculate_diff_nodes]; when the property
    edge of the same row did not end, the third loop looks the attribute up
    and the computation stops with a [KeyError] on the attribute name. *)
Theorem ended_attribute_open_property_raises (now : Z)
    (origin_attr_query :
       gset string → Branch.t → Z → string → string → option (string → Z))
    (self : Diff.t) (result : AttrRow.t) :
  Diff._results self = [] →
  ended_before (Rel.to (AttrRow.r1 result)) (Diff.diff_to self) = true →
  ended_before (Rel.to (AttrRow.r2 result)) (Diff.diff_to self) = false →
  is_Some (Rel.from (AttrRow.r2 result)) →
  _calculate_diff_nodes now origin_attr_query [] [result] self
    = Raise (KeyError (Vertex.name (AttrRow.a result))).
Proof.
  intros Hrs Hr1 Hr2 [prop_from Hfrom].
  unfold _calculate_diff_nodes. rewrite Hrs. cbn [for_each mbind res_bind].
  unfold diff_nodes_attr_row.
  destruct (ensure_node_spec [] result) as (node & Hnode & Horigin).
  destruct Horigin as [Hin | (_ & _ & Hattrs)]; [done|].
  unfold results_node in Hnode. unfold dict_item at 1. rewrite Hnode.
  cbn [mbind res_bind]. rewrite Hattrs. cbn [PyDict.mem negb].
  assert (PyDict.mem ([] : list (string * NodeAttributeDiffElement.t))
            (Vertex.name (AttrRow.a result)) = false) as -> by done.
  cbn [negb]. rewrite Hr1. cbn [mbind res_bind for_each].
  unfold diff_nodes_prop_row. rewrite Hr2, Hfrom, prop_action_Ok.
  cbn [mbind res_bind]. rewrite results_at_touch.
  unfold dict_item. rewrite Hnode. cbn [mbind res_bind]. by rewrite Hattrs.
Qed.

(** X5, applied to the change of [C.name] on [branch2], known on [main]. *)
Lemma attribute_property_classification_witness :
  ∃ rs' attr' prop,
    diff_nodes_prop_row (Store.node_list_get_attribute_query clean_store)
      main_branch 50 100 ∅ results_after_attr_loop attr_row_branch2 = Ok rs' ∧
    results_attr rs' "branch2" (Vertex.uuid vertex_C) "name" = Some attr' ∧
    PyDict.get (NodeAttributeDiffElement.properties attr') "HAS_VALUE" = Some prop ∧
    PropertyDiffElement.action prop = UPDATED ∧
    PropertyDiffElement.origin_rel_id prop = Some 9%Z.
Proof.
  destruct (attribute_property_classification
              (Store.node_list_get_attribute_query clean_store) main_branch 50 100 ∅
              results_after_attr_loop attr_row_branch2
              (NodeAttributeDiffElement.mk (Vertex.uuid vertex_name) "name" UPDATED
                 2 10 None None [])
              70) as [_ Hopen].
  destruct (Hopen eq_refl eq_refl eq_refl)
    as (rs' & attr' & prop & Hrow & Hattr & _ & _ & Hprop & _ & Horigin & Hact).
  exists rs', attr', prop. repeat split; assumption.
Defined.

(** X6, applied to an attribute detached at 80 in a diff that ends at 100. *)
Lemma ended_attribute_open_property_raises_witness :
  _calculate_diff_nodes 100 (Store.node_list_get_attribute_query clean_store)
    [] [attr_row_ended] sample_diff = Raise (KeyError "name").
Proof.
  apply (ended_attribute_open_property_raises 100
           (Store.node_list_get_attribute_query clean_store) sample_diff
           attr_row_ended); [reflexivity | reflexivity | reflexivity |].
  exists 70%Z. reflexivity.
Defined.

(** ** The [Diff] object *)

(** X7. The diff is computed once: after a successful [get_nodes] (or
    [get_relationships]) the same call on the resulting object returns the
    same answer and the same object, whatever the store holds by then and
    whatever the time is. *)
Theorem diff_results_memoized (now : Z) (store : Store.t) (self : Diff.t) :
  (∀ nodes self', get_nodes now store self = Ok (nodes, self') →
     ∀ now' store', get_nodes now' store' self' = Ok (nodes, self')) ∧
  (∀ rels self', get_relationships now store self = Ok (rels, self') →
     ∀ now' store', get_relationships now' store' self' = Ok (rels, self')).
Proof.
  split.
  - intros nodes self' Hget now' store'. unfold get_nodes in *.
    destruct (Diff._calculated_diff_nodes_at self) as [stamp|] eqn:Hstamp.
    + cbn [mbind res_bind] in Hget. injection Hget as <- <-. by rewrite Hstamp.
    + unfold _calculate_diff_nodes in Hget.
      destruct (for_each _ _ _) as [rs1|]; [|done]. cbn [mbind res_bind] in Hget.
      destruct (for_each _ _ _) as [[rs2 [q1 q2]]|]; [|done].
      cbn [mbind res_bind] in Hget.
      destruct (for_each _ _ _) as [rs3|]; [|done]. cbn [mbind res_bind] in Hget.
      by injection Hget as <- <-.
  - intros rels self' Hget now' store'. unfold get_relationships in *.
    destruct (Diff._calculated_diff_rels_at self) as [stamp|] eqn:Hstamp.
    + cbn [mbind res_bind] in Hget. injection Hget as <- <-. by rewrite Hstamp.
    + unfold _calculated_diff_rels in Hget.
      destruct (for_each _ _ _) as [[rs1 ids1]|]; [|done].
      cbn [mbind res_bind] in Hget.
      destruct (foldl _ _ _) as [rs2 ids2].
      destruct (for_each _ _ _) as [rs3|]; [|done]. cbn [mbind res_bind] in Hget.
      by injection Hget as <- <-.
Qed.

(** X7, applied: the nodes of the diff of [branch2], computed against a
    store with a conflict, are read back unchanged against an empty one. *)
Lemma diff_results_memoized_witness :
  match get_nodes 100 conflict_store sample_diff with
  | Ok (nodes, self') => get_nodes 200 rel_store self' = Ok (nodes, self')
  | Raise _ => False
  end.
Proof.
  destruct (get_nodes 100 conflict_store sample_diff) as [[nodes self']|e] eqn:Hget;
    [|discriminate Hget].
  exact (proj1 (diff_results_memoized 100 conflict_store sample_diff)
           nodes self' Hget 200 rel_store).
Defined.

(** ** De-duplication of relationship-property rows *)



(** ** Validation *)

Lemma repository_checks_fold_messages (checks : list (bool * list string))
    passed messages :
  (∀ result errors, (result, errors) ∈ checks → result = true) →
  foldl (λ '(passed, messages) '(result, errors),
           if negb result then (false, (messages ++ errors)%list)
           else (passed, messages))
        (passed, messages) checks = (passed, messages).
Proof.
  induction checks as [|[result errors] checks IH]; intros Hall; [done|].
  cbn. rewrite (Hall result errors) by left. cbn. apply IH.
  intros r e Hin. eapply Hall. by right.
Qed.

(** X9. When the diff of the branch can be built and its conflicts
    computed, [validate] returns normally, and it passes exactly when there
    is no conflict and every repository check passes; it then returns no
    message. *)
Theorem validate_passes_iff (now : Z) (get_branch : string → Branch.t)
    (store : Store.t) (self : Branch.t) (d : Diff.t)
    (conflicts : gset path) (d' : Diff.t) :
  Branch_diff now get_branch self None None = Ok d →
  get_conflicts now store d = Ok (conflicts, d') →
  ∃ passed messages,
    validate now get_branch store self = Ok (passed, messages) ∧
    (passed = true ↔
       conflicts = ∅ ∧
       ∀ result errors,
         (result, errors) ∈ Store.repository_checks store self → result = true) ∧
    (passed = true → messages = []).
Proof.
  intros Hd Hc. unfold validate. rewrite Hd. cbn [mbind res_bind].
  rewrite Hc. cbn [mbind res_bind].
  set (init := if bool_decide (conflicts ≠ ∅)
               then (false, (λ conflict, "Conflict detected at " +:+ path_text conflict)
                              <$> elements conflicts)
               else (true, [])).
  destruct init as [passed0 messages0] eqn:Hinit.
  pose proof (repository_checks_fold (Store.repository_checks store self)
                passed0 messages0) as [Hp _].
  pose proof (repository_checks_fold_messages (Store.repository_checks store self)
                passed0 messages0) as Hm.
  destruct (foldl _ (passed0, messages0) _) as [passed messages] eqn:Hfold.
  cbn [fst snd] in *. exists passed, messages. split; [done|].
  assert (passed0 = true ↔ conflicts = ∅) as Hp0.
  { subst init. case_bool_decide as Hne; injection Hinit as <- _.
    - split; [done|]. by intros ?.
    - split; [|done]. intros _. by destruct (decide (conflicts = ∅)). }
  split.
  - rewrite Hp, Hp0. done.
  - intros Hpassed. destruct (proj1 Hp Hpassed) as [Hp1 Hall].
    specialize (Hm Hall). assert (messages = messages0) as -> by congruence.
    subst init. rewrite (proj1 Hp0 Hp1) in Hinit.
    rewrite bool_decide_eq_false_2 in Hinit by (by intros ?). congruence.
Qed.

(** X9, applied to [branch2] when it alone changed [C.name]. *)
Lemma validate_passes_iff_witness :
  validate 100 (λ _, main_branch) clean_store branch2 = Ok (true, []).
Proof.
  destruct (get_conflicts 100 clean_store sample_diff) as [[conflicts d']|e] eqn:Hc;
    [|discriminate Hc].
  destruct (validate_passes_iff 100 (λ _, main_branch) clean_store branch2
              sample_diff conflicts d' eq_refl Hc)
    as (passed & messages & Hv & Hiff & Hmsg).
  assert (passed = true) as ->.
  { apply Hiff. split.
    - injection Hc as <- _. apply (bool_decide_unpack _). vm_compute. exact I.
    - intros result errors Hin. by apply elem_of_nil in Hin. }
  by rewrite (Hmsg eq_refl) in Hv.
Defined.
